(** * chart-packer: the CRD-less and CRD-only repackaging commands

    A shallow embedding of [pkg/cmds/crdless.go] and [pkg/cmds/crdonly.go].
    Go strings and byte slices are Rocq [string]s, Go maps are [gmap]s, a
    [*chart.Chart] is the tree it points to, and output printed with
    [fmt.Printf] is a list of events. *)

From Stdlib Require Import String Ascii List Bool Arith Lia.
From stdpp Require Import base option list strings gmap fin_maps.

Local Open Scope string_scope.
Local Open Scope nat_scope.
Local Open Scope list_scope.
Local Open Scope stdpp_scope.

(** ** Go values the commands pass around *)

(** A Go [error], by its message. *)
Definition error : Type := string.

(** What a Go function returning [(A, error)] gives back. *)
Inductive result (A : Type) : Type :=
| Ok (a : A)
| Err (e : error).
Arguments Ok {A} a.
Arguments Err {A} e.

(** The same for code that can also panic (a nil dereference, a write into a
    nil map), which ends the process. *)
Inductive outcome (A : Type) : Type :=
| Done (a : A)
| Fail (e : error)
| Panic (msg : string).
Arguments Done {A} a.
Arguments Fail {A} e.
Arguments Panic {A} msg.

#[global] Instance outcome_bind : MBind outcome := fun A B k x =>
  match x with
  | Done a => k a
  | Fail e => Fail e
  | Panic msg => Panic msg
  end.

(** [strings.HasPrefix(s, prefix)]. *)
Definition HasPrefix (s prefix : string) : bool := String.prefix prefix s.

(** [strings.TrimPrefix(s, prefix)]. *)
Definition TrimPrefix (s prefix : string) : string :=
  if HasPrefix s prefix
  then String.substring (String.length prefix) (String.length s - String.length prefix) s
  else s.

(** ** helm.sh/helm/v3/pkg/chart: the data the commands read and write *)

(** [chart.File]: a name relative to the chart's root and the raw bytes. *)
Record File : Type := mkFile {
  File_Name : string;
  File_Data : string
}.

#[global] Instance File_eq_dec : EqDecision File.
Proof. solve_decision. Defined.

(** [chart.Maintainer]. *)
Record Maintainer : Type := mkMaintainer {
  Maintainer_Name : string;
  Maintainer_Email : string;
  Maintainer_URL : string
}.

(** [chart.Metadata], with the fields the commands read or write. *)
Record Metadata : Type := mkMetadata {
  Name : string;
  Home : string;
  Sources : list string;
  Version : string;
  Description : string;
  Keywords : list string;
  Maintainers : list Maintainer;
  Icon : string;
  APIVersion : string;
  Condition : string;
  Tags : string;
  AppVersion : string;
  Annotations : gmap string string;
  KubeVersion : string
}.

(** [chart.Chart]. [Metadata] is a pointer and may be nil; [dependencies] is
    the private slice behind [Dependencies()] and [SetDependencies()]. The
    loader builds a tree: every entry of a dependency list is a loaded chart
    (never nil), owned by its one parent, so the tests [dep != nil] of
    crdonly.go line 63 and [dep == nil] of crdless.go line 98 always let
    the dependency through. The fields Lock, Values and Schema, which
    neither command touches, and the back pointer to the parent are left
    out. *)
#[local] Unset Elimination Schemes.
Inductive Chart : Type :=
| mkChart (Raw : list File) (Meta : option Metadata) (Templates : list File)
          (Files : list File) (dependencies : list Chart).
#[local] Set Elimination Schemes.

Definition Raw (ch : Chart) : list File :=
  match ch with mkChart raw _ _ _ _ => raw end.
Definition Meta (ch : Chart) : option Metadata :=
  match ch with mkChart _ md _ _ _ => md end.
Definition Templates (ch : Chart) : list File :=
  match ch with mkChart _ _ tpl _ _ => tpl end.
Definition Files (ch : Chart) : list File :=
  match ch with mkChart _ _ _ files _ => files end.

(** [func (ch *Chart) Dependencies() []*Chart]. *)
Definition Dependencies (ch : Chart) : list Chart :=
  match ch with mkChart _ _ _ _ deps => deps end.

(** [func (ch *Chart) Name() string]: the empty string without metadata. *)
Definition Chart_Name (ch : Chart) : string :=
  match Meta ch with
  | None => ""
  | Some md => Name md
  end.

(** ** crdless.go *)

(** The test of line 86: [strings.HasPrefix(f.Name, "crds/")]. *)
Definition underCRDs (f : File) : bool := HasPrefix (File_Name f) "crds/".

(** The test of line 103: [dep.Metadata != nil && len(dep.Files) > 0]. *)
Definition embeddedArchive (dep : Chart) : bool :=
  match Meta dep with
  | None => false
  | Some _ => 0 <? List.length (Files dep)
  end.

(** [removeCRDsFromChart] (lines 82-115). The Go function rewrites [ch.Files]
    and the dependency list of the chart it is handed; the chart after the
    call is the value returned here. [Raw] is left as it is (line 93 is a
    comment). Every dependency is appended to [newDeps] in order, after the
    recursive call when line 103 lets it through. *)
Fixpoint removeCRDsFromChart (ch : Chart) : Chart :=
  match ch with
  | mkChart raw md tpl files deps =>
      let newFiles := List.filter (fun f => negb (underCRDs f)) files in
      let newDeps :=
        List.map (fun dep => if embeddedArchive dep
                             then removeCRDsFromChart dep
                             else dep) deps in
      mkChart raw md tpl newFiles newDeps
  end.

(** ** crdonly.go: the values *)

(** [schema.GroupKind], the key of both maps of the collector. *)
Record GroupKind : Type := mkGroupKind {
  Group : string;
  Kind : string
}.

#[global] Instance GroupKind_eq_dec : EqDecision GroupKind.
Proof. solve_decision. Defined.

#[global] Instance GroupKind_countable : Countable GroupKind :=
  inj_countable' (fun k => (Group k, Kind k))
                 (fun p => mkGroupKind (fst p) (snd p))
                 (fun k => match k with mkGroupKind _ _ => eq_refl end).

(** [crdv1.CustomResourceDefinition], with the fields [extractCRDKey] reads:
    the embedded TypeMeta (Kind, APIVersion), Spec.Group and
    Spec.Names.Kind. *)
Record CustomResourceDefinitionNames : Type := mkNames {
  Names_Kind : string
}.

Record CustomResourceDefinitionSpec : Type := mkSpec {
  Spec_Group : string;
  Spec_Names : CustomResourceDefinitionNames
}.

Record CustomResourceDefinition : Type := mkCustomResourceDefinition {
  TypeMeta_Kind : string;
  TypeMeta_APIVersion : string;
  Spec : CustomResourceDefinitionSpec
}.

(** What [yaml.Unmarshal] stores in a [map[string]any]: encoding/json's
    values. A number is a float64, kept as its 64 bits. *)
#[local] Unset Elimination Schemes.
Inductive value : Type :=
| VNull
| VBool (b : bool)
| VFloat64 (bits : Z)
| VString (s : string)
| VSlice (l : list value)
| VMap (m : gmap string value).
#[local] Set Elimination Schemes.

(** The type assertion [val.(map[string]interface{})] of SetNestedField. *)
Definition asMap (v : value) : option (gmap string value) :=
  match v with
  | VMap m => Some m
  | _ => None
  end.

(** [chart.CRD], an entry of [CRDObjects()]: the file and its name. The
    field Filename (the path from the root chart) is never read here and is
    left out. *)
Record CRD : Type := mkCRD {
  CRD_Name : string;
  CRD_File : File
}.

(** A line printed on standard output, by the [fmt.Printf] that prints it:
    crdonly.go line 163 (a CRD that does not parse), line 168 (a duplicate:
    the key, then [sourceName] after "duplicated in" and [existingSource]
    after "keeping version from"), and line 89 with crdless.go line 55 (a
    doc.yaml that could not be rewritten). *)
Inductive Event : Type :=
| WarnParseCRD (fileName sourceName : string) (err : error)
| WarnDuplicate (key : GroupKind) (sourceName existingSource : string)
| WarnModifyDoc (err : error).

#[global] Instance Event_eq_dec : EqDecision Event.
Proof. solve_decision. Defined.

(** What the collector can reach while it runs: the loaded chart behind the
    pointer [ch], the two maps made on lines 55 and 56, and standard
    output. *)
Record State : Type := mkState {
  loaded : Chart;
  crdMap : gmap GroupKind File;
  sourceMap : gmap GroupKind string;
  stdout : list Event
}.

Definition print (e : Event) (st : State) : State :=
  mkState (loaded st) (crdMap st) (sourceMap st) (stdout st ++ [e]).

(** The two assignments of lines 174 and 175. *)
Definition record (key : GroupKind) (f : File) (sourceName : string)
    (st : State) : State :=
  mkState (loaded st) (<[key := f]> (crdMap st))
          (<[key := sourceName]> (sourceMap st)) (stdout st).

(** ** k8s.io/apimachinery: unstructured.SetNestedField *)

(** [jsonPath(fields)]: a dot, then the fields joined by dots. *)
Definition jsonPath (fields : list string) : string :=
  "." +:+ String.concat "." fields.

(** [setNestedFieldNoCopy], which [SetNestedField] calls with a copy of the
    value, after [walked] of its fields. It walks the fields but the last:
    a level that is there must be a map, a level that is not there is made;
    then it stores the value under the last field. With no field the slice
    expression [fields[:len(fields)-1]] panics. The maps below the top one
    are reached from it alone, so the in-place stores are the updates
    written here. *)
Fixpoint setNestedFieldFrom (walked : list string) (m : gmap string value)
    (v : value) (fields : list string) : outcome (gmap string value) :=
  match fields with
  | [] => Panic "slice bounds out of range"
  | field :: rest =>
      match rest with
      | [] => Done (<[field := v]> m)
      | _ :: _ =>
          match m !! field with
          | Some val =>
              match asMap val with
              | Some valMap =>
                  sub ← setNestedFieldFrom (walked ++ [field]) valMap v rest;
                  Done (<[field := VMap sub]> m)
              | None =>
                  Fail ("value cannot be set because "
                        +:+ jsonPath (walked ++ [field])
                        +:+ " is not a map[string]interface{}")
              end
          | None =>
              sub ← setNestedFieldFrom (walked ++ [field]) ∅ v rest;
              Done (<[field := VMap sub]> m)
          end
      end
  end.

Definition setNestedFieldNoCopy (m : gmap string value) (v : value)
    (fields : list string) : outcome (gmap string value) :=
  setNestedFieldFrom [] m v fields.

(** [unstructured.SetNestedField(obj, value, fields...)]. [obj] is [None]
    for a nil map, in which the first store panics. *)
Definition SetNestedField (obj : option (gmap string value)) (v : value)
    (fields : list string) : outcome (gmap string value) :=
  match obj, fields with
  | _, [] => Panic "slice bounds out of range"
  | None, _ :: _ => Panic "assignment to entry in nil map"
  | Some m, _ :: _ => setNestedFieldNoCopy m v fields
  end.

(** ** The two commands *)

(** Library code the commands call and this development does not look into.
    [hasManifestExtension] is helm's test on a file name (the extension is
    .yaml, .yml or .json, in any case). [yaml_Unmarshal_CRD] is
    [yaml.Unmarshal] into a zero [crdv1.CustomResourceDefinition], and
    [yaml_Unmarshal_map] into a nil [map[string]any], which stays nil
    ([None]) when the document is empty or null. [yaml_Marshal] is
    [yaml.Marshal] of such a map. *)
Class Lib : Type := mkLib {
  hasManifestExtension : string -> bool;
  yaml_Unmarshal_CRD : string -> result CustomResourceDefinition;
  yaml_Unmarshal_map : string -> result (option (gmap string value));
  yaml_Marshal : gmap string value -> result string
}.

Section Commands.

Context {lib : Lib}.

(** *** helm: Chart.CRDObjects *)

(** The test [CRDObjects] puts on a file of [ch.Files]. *)
Definition isCRDObject (f : File) : bool :=
  HasPrefix (File_Name f) "crds/" && hasManifestExtension (File_Name f).

(** The CRD objects of one chart's own files, in the order of [Files]. *)
Definition ownCRDObjects (files : list File) : list CRD :=
  List.map (fun f => mkCRD (File_Name f) f) (List.filter isCRDObject files).

(** [func (ch *Chart) CRDObjects() []CRD] of helm v3, documented there as
    "a list of CRD objects in the 'crds/' directory of a Helm chart &
    subcharts": the chart's own, then those of each dependency in turn,
    each gathered by the same method. *)
Fixpoint CRDObjects (ch : Chart) : list CRD :=
  match ch with
  | mkChart _ _ _ files deps =>
      ownCRDObjects files ++ List.flat_map CRDObjects deps
  end.

(** *** crdonly.go *)

(** [extractCRDKey] (lines 180-195). *)
Definition extractCRDKey (data : string) : result GroupKind :=
  match yaml_Unmarshal_CRD data with
  | Err e => Err e
  | Ok crd =>
      if String.eqb (TypeMeta_APIVersion crd) ""
         || negb (String.eqb (TypeMeta_Kind crd) "CustomResourceDefinition")
      then Err "not a valid CustomResourceDefinition"
      else Ok (mkGroupKind (Spec_Group (Spec crd))
                           (Names_Kind (Spec_Names (Spec crd))))
  end.

(** One turn of the loop of [collectCRDs] (lines 161-175). The test of line
    167 reads [sourceMap]. *)
Definition collectCRD (sourceName : string) (st : State) (f : CRD) : State :=
  match extractCRDKey (File_Data (CRD_File f)) with
  | Err e => print (WarnParseCRD (CRD_Name f) sourceName e) st
  | Ok key =>
      match sourceMap st !! key with
      | Some existingSource =>
          print (WarnDuplicate key sourceName existingSource) st
      | None => record key (CRD_File f) sourceName st
      end
  end.

(** [collectCRDs] (lines 159-177). *)
Definition collectCRDs (ch : Chart) (sourceName : string) (st : State) : State :=
  fold_left (collectCRD sourceName) (CRDObjects ch) st.

(** Lines 55-66 of the command: the two empty maps, the call on the loaded
    chart, then one call for each of its dependencies. *)
Definition collectAll (ch : Chart) : State :=
  fold_left (fun st dep => collectCRDs dep (Chart_Name dep) st)
            (Dependencies ch)
            (collectCRDs ch (Chart_Name ch) (mkState ch ∅ ∅ [])).

(** Lines 69-72: the files of [crdMap]. Go ranges over a map in an order it
    does not fix; [map_to_list] is one such order, and nothing below
    depends on which. *)
Definition crdFiles (st : State) : list File :=
  (map_to_list (crdMap st)).*2.

(** [modifyDocYaml] (lines 198-216). *)
Definition modifyDocYaml (data newChartName : string) : outcome string :=
  match yaml_Unmarshal_map data with
  | Err e => Fail e
  | Ok content =>
      c1 ← SetNestedField content (VString newChartName) ["project"; "name"];
      c2 ← SetNestedField (Some c1) (VString newChartName) ["project"; "shortName"];
      c3 ← SetNestedField (Some c2) (VString newChartName) ["chart"; "name"];
      c4 ← SetNestedField (Some c3) (VString newChartName) ["release"; "name"];
      match yaml_Marshal c4 with
      | Ok out => Done out
      | Err e => Fail e
      end
  end.

(** [ch.Metadata.Name = newChartName] on a metadata value. *)
Definition setName (md : Metadata) (newName : string) : Metadata :=
  mkMetadata newName (Home md) (Sources md) (Version md) (Description md)
             (Keywords md) (Maintainers md) (Icon md) (APIVersion md)
             (Condition md) (Tags md) (AppVersion md) (Annotations md)
             (KubeVersion md).

Definition setVersion (md : Metadata) (v : string) : Metadata :=
  mkMetadata (Name md) (Home md) (Sources md) v (Description md)
             (Keywords md) (Maintainers md) (Icon md) (APIVersion md)
             (Condition md) (Tags md) (AppVersion md) (Annotations md)
             (KubeVersion md).

Definition setAnnotations (md : Metadata) (a : gmap string string) : Metadata :=
  mkMetadata (Name md) (Home md) (Sources md) (Version md) (Description md)
             (Keywords md) (Maintainers md) (Icon md) (APIVersion md)
             (Condition md) (Tags md) (AppVersion md) a (KubeVersion md).

Definition setMeta (ch : Chart) (md : Metadata) : Chart :=
  mkChart (Raw ch) (Some md) (Templates ch) (Files ch) (Dependencies ch).

Definition setFiles (ch : Chart) (files : list File) : Chart :=
  mkChart (Raw ch) (Meta ch) (Templates ch) files (Dependencies ch).

(** [renameChart] (lines 218-224). *)
Definition renameChart (ch : Chart) (newChartName : string) : outcome Chart :=
  match Meta ch with
  | None => Panic "nil pointer dereference"
  | Some md =>
      let md1 := setName md newChartName in
      match Annotations md1 !! "charts.openshift.io/name" with
      | Some _ =>
          Done (setMeta ch (setAnnotations md1
                  (<["charts.openshift.io/name" := newChartName]> (Annotations md1))))
      | None => Done (setMeta ch md1)
      end
  end.

(** Lines 77-83. *)
Definition filesToCopy : list string :=
  ["doc.yaml"; "README.md"; "values.yaml"; "values.schema.json"; ".helmignore"].

(** Lines 85-101 for one [name]: the first file of [ch.Raw] with that name,
    if there is one. [acc] holds [extraFiles] and what was printed. *)
Definition copyFile (raw : list File) (newChartName name : string)
    (acc : list File * list Event) : outcome (list File * list Event) :=
  match List.find (fun f => String.eqb (File_Name f) name) raw with
  | None => Done acc
  | Some f =>
      if String.eqb name "doc.yaml"
      then match modifyDocYaml (File_Data f) newChartName with
           | Fail e => Done (acc.1, acc.2 ++ [WarnModifyDoc e])
           | Done data => Done (acc.1 ++ [mkFile (File_Name f) data], acc.2)
           | Panic msg => Panic msg
           end
      else Done (acc.1 ++ [f], acc.2)
  end.

(** Lines 84-102: the loop over [filesToCopy]. *)
Fixpoint copyFiles (raw : list File) (newChartName : string)
    (names : list string) (acc : list File * list Event)
    : outcome (list File * list Event) :=
  match names with
  | [] => Done acc
  | name :: rest =>
      acc' ← copyFile raw newChartName name acc;
      copyFiles raw newChartName rest acc'
  end.

(** Lines 105-109. *)
Definition templateHelpers (ch : Chart) : list File :=
  List.filter (fun f => HasPrefix (File_Name f) "templates/_") (Templates ch).

(** The [Run] of [NewCmdGenerateCRDOnlyChart], from the loaded chart [ch]
    and the flag [semver] to the call of [chartutil.SaveDir] on line 140:
    the chart handed over to be saved and what was printed until then. *)
Definition crdOnly (ch : Chart) (semver : bool) : outcome (Chart * list Event) :=
  match Meta ch with
  | None => Panic "nil pointer dereference"
  | Some md =>
      let newChartName := Name md +:+ "-certified-crds" in
      let st := collectAll ch in
      acc ← copyFiles (Raw ch) newChartName filesToCopy ([], stdout st);
      let extraFiles := acc.1 ++ templateHelpers ch in
      let allFiles := crdFiles st ++ extraFiles in
      let newChart :=
        mkChart []
          (Some (mkMetadata newChartName (Home md) (Sources md) (Version md)
                   ("Chart containing only CRDs from " +:+ Chart_Name ch +:+ " chart")
                   (Keywords md) (Maintainers md) (Icon md) "v2"
                   (Condition md) (Tags md) (AppVersion md) (Annotations md)
                   (KubeVersion md)))
          [] allFiles [] in
      renamed ← renameChart newChart newChartName;
      match Meta renamed with
      | None => Panic "nil pointer dereference"
      | Some md' =>
          Done (if semver
                then setMeta renamed (setVersion md' (TrimPrefix (Version md) "v"))
                else renamed,
                acc.2)
      end
  end.

(** *** crdless.go *)

(** Lines 52-61: the first file named doc.yaml gets the rewritten bytes, or
    a warning is printed and the file stays as it is. *)
Fixpoint rewriteDoc (files : list File) (newChartName : string)
    : outcome (list File * list Event) :=
  match files with
  | [] => Done ([], [])
  | f :: rest =>
      if String.eqb (File_Name f) "doc.yaml"
      then match modifyDocYaml (File_Data f) newChartName with
           | Fail e => Done (f :: rest, [WarnModifyDoc e])
           | Done data => Done (mkFile (File_Name f) data :: rest, [])
           | Panic msg => Panic msg
           end
      else r ← rewriteDoc rest newChartName; Done (f :: r.1, r.2)
  end.

(** The [Run] of [NewCmdGenerateCRDLessChart], from the loaded chart to the
    call of [chartutil.SaveDir] on line 63. *)
Definition crdLess (ch : Chart) : outcome (Chart * list Event) :=
  match Meta ch with
  | None => Panic "nil pointer dereference"
  | Some md =>
      let newChartName := Name md +:+ "-certified" in
      let ch1 := removeCRDsFromChart ch in
      let ch2 := setMeta ch1 (setName md newChartName) in
      r ← rewriteDoc (Files ch2) newChartName;
      Done (setFiles ch2 r.1, r.2)
  end.

End Commands.

(** ** Notions the statements below speak of *)

#[global] Instance result_eq_dec {A : Type} `{EqDecision A} : EqDecision (result A).
Proof. solve_decision. Defined.

(** The tree without its files: at each node the name, the metadata and the
    children in their order. *)
#[local] Unset Elimination Schemes.
Inductive Shape : Type :=
| mkShape (name : string) (md : option Metadata) (children : list Shape).
#[local] Set Elimination Schemes.

Fixpoint shapeOf (ch : Chart) : Shape :=
  match ch with
  | mkChart _ md _ _ deps =>
      mkShape (Chart_Name ch) md (List.map shapeOf deps)
  end.

Fixpoint nodeCount (ch : Chart) : nat :=
  match ch with
  | mkChart _ _ _ _ deps => S (list_sum (List.map nodeCount deps))
  end.

(** The files of the chart and of every chart below it. *)
Fixpoint filesAtAnyDepth (ch : Chart) : list File :=
  match ch with
  | mkChart _ _ _ files deps => files ++ List.flat_map filesAtAnyDepth deps
  end.

(** Every dependency, at every depth, passes the test of line 103. *)
Fixpoint allEmbedded (ch : Chart) : bool :=
  match ch with
  | mkChart _ _ _ _ deps =>
      forallb (fun dep => embeddedArchive dep && allEmbedded dep) deps
  end.

(** What the loop of lines 97-113 does to one dependency. *)
Definition stripDependency (dep : Chart) : Chart :=
  if embeddedArchive dep then removeCRDsFromChart dep else dep.

Section Notions.

Context {lib : Lib}.

(** [f] is a CRD object of its chart and [extractCRDKey] gives it [k]. *)
Definition definesKey (k : GroupKind) (f : File) : bool :=
  isCRDObject f && bool_decide (extractCRDKey (File_Data f) = Ok k).

(** The CRD objects the command walks through, each with the [sourceName]
    of the call that walks through it: the call of line 59, then the calls
    of line 64. *)
Definition collectorInput (ch : Chart) : list (string * CRD) :=
  List.map (pair (Chart_Name ch)) (CRDObjects ch)
  ++ List.flat_map (fun dep => List.map (pair (Chart_Name dep)) (CRDObjects dep))
                   (Dependencies ch).

Definition collectItems (items : list (string * CRD)) (st : State) : State :=
  fold_left (fun st it => collectCRD it.1 st it.2) items st.

(** Every file of [crdMap] sits under the key [extractCRDKey] gives it, and
    every key of [crdMap] is a key of [sourceMap], the map line 167 reads. *)
Definition wellKeyed (st : State) : Prop :=
  forall k f, crdMap st !! k = Some f ->
    extractCRDKey (File_Data f) = Ok k /\ is_Some (sourceMap st !! k).

End Notions.

Definition isDuplicateWarning (e : Event) : bool :=
  match e with
  | WarnDuplicate _ _ _ => true
  | _ => false
  end.

(** ** A stand-in for the libraries, for the examples *)

Definition asciiLower (c : ascii) : ascii :=
  let n := nat_of_ascii c in
  if (65 <=? n) && (n <=? 90) then ascii_of_nat (n + 32) else c.

Fixpoint lower (s : string) : string :=
  match s with
  | EmptyString => EmptyString
  | String c rest => String (asciiLower c) (lower rest)
  end.

Fixpoint hasSlash (s : string) : bool :=
  match s with
  | EmptyString => false
  | String c rest => Ascii.eqb c "/" || hasSlash rest
  end.

(** [filepath.Ext] with the separator of Unix: from the last dot of the
    last element of the path. *)
Fixpoint unixExt (path : string) : string :=
  match path with
  | EmptyString => EmptyString
  | String c rest =>
      if hasSlash rest then unixExt rest
      else match unixExt rest with
           | EmptyString => if Ascii.eqb c "." then path else EmptyString
           | ext => ext
           end
  end.

(** helm's [hasManifestExtension] on ASCII names. *)
Definition sample_hasManifestExtension (fname : string) : bool :=
  let ext := lower (unixExt fname) in
  String.eqb ext ".yaml" || String.eqb ext ".yml" || String.eqb ext ".json".

(** Documents of the examples. *)
Definition fooOfRoot : string :=
  "{apiVersion: apiextensions.k8s.io/v1, kind: CustomResourceDefinition, metadata: {name: foos.g}, spec: {group: g, names: {kind: Foo, plural: foos}, scope: Namespaced}}".

Definition fooOfDep : string :=
  "{apiVersion: apiextensions.k8s.io/v1, kind: CustomResourceDefinition, metadata: {name: foos.g}, spec: {group: g, names: {kind: Foo, plural: foos}, scope: Cluster}}".

Definition barOfDep : string :=
  "{apiVersion: apiextensions.k8s.io/v1, kind: CustomResourceDefinition, metadata: {name: bars.g}, spec: {group: g, names: {kind: Bar, plural: bars}, scope: Namespaced}}".

Definition configMapDoc : string :=
  "{apiVersion: v1, kind: ConfigMap, metadata: {name: settings}}".

(** Not YAML: a flow mapping that never ends. *)
Definition brokenDoc : string := "{".

(** A doc.yaml whose [project] is a string. *)
Definition scalarProjectDoc : string := "project: hello".

(** A doc.yaml with nothing in it: the decoder leaves the map nil. *)
Definition emptyDoc : string := "".

Definition definitionOf (group kind : string) : CustomResourceDefinition :=
  mkCustomResourceDefinition "CustomResourceDefinition" "apiextensions.k8s.io/v1"
    (mkSpec group (mkNames kind)).

(** The decoder of the examples: the documents above as the library decodes
    them; any other input is reported as an error, and the examples hand it
    no other input than [brokenDoc]. *)
Definition sample_Unmarshal_CRD (data : string) : result CustomResourceDefinition :=
  if String.eqb data fooOfRoot then Ok (definitionOf "g" "Foo")
  else if String.eqb data fooOfDep then Ok (definitionOf "g" "Foo")
  else if String.eqb data barOfDep then Ok (definitionOf "g" "Bar")
  else if String.eqb data configMapDoc
       then Ok (mkCustomResourceDefinition "ConfigMap" "v1" (mkSpec "" (mkNames "")))
  else Err "yaml: did not find expected node content".

Definition sample_Unmarshal_map (data : string)
    : result (option (gmap string value)) :=
  if String.eqb data scalarProjectDoc
  then Ok (Some {[ "project" := VString "hello" ]})
  else if String.eqb data emptyDoc then Ok None
  else Err "yaml: did not find expected node content".

(** No example gets as far as [yaml.Marshal]. *)
Definition sample_Marshal (content : gmap string value) : result string :=
  Err "yaml: outside the examples".

Definition sampleLib : Lib :=
  mkLib sample_hasManifestExtension sample_Unmarshal_CRD sample_Unmarshal_map
        sample_Marshal.

Definition metadataOf (name : string) : Metadata :=
  mkMetadata name "" [] "v1.0.0" "" [] [] "" "v2" "" "" "" ∅ "".

(** Scenario A of the specification: the root and its one dependency both
    define (g, Foo), with different bytes. *)
Definition depA : Chart :=
  mkChart [mkFile "Chart.yaml" "name: dep"; mkFile "crds/foo.yaml" fooOfDep]
          (Some (metadataOf "dep")) []
          [mkFile "crds/foo.yaml" fooOfDep] [].

Definition rootA : Chart :=
  mkChart [mkFile "Chart.yaml" "name: root"; mkFile "crds/foo.yaml" fooOfRoot]
          (Some (metadataOf "root")) []
          [mkFile "crds/foo.yaml" fooOfRoot] [depA].

(** A chart whose dependency [middle] has a Chart.yaml and nothing else of
    its own, and holds the dependency [leaf], which ships a CRD. *)
Definition leaf : Chart :=
  mkChart [mkFile "Chart.yaml" "name: leaf"; mkFile "README.md" "leaf";
           mkFile "crds/bar.yaml" barOfDep]
          (Some (metadataOf "leaf")) []
          [mkFile "README.md" "leaf"; mkFile "crds/bar.yaml" barOfDep] [].

Definition middle : Chart :=
  mkChart [mkFile "Chart.yaml" "name: middle"]
          (Some (metadataOf "middle")) [] [] [leaf].

Definition umbrella : Chart :=
  mkChart [mkFile "Chart.yaml" "name: umbrella"; mkFile "README.md" "umbrella"]
          (Some (metadataOf "umbrella")) []
          [mkFile "README.md" "umbrella"] [middle].

(** A chart whose doc.yaml is not YAML. *)
Definition brokenDocChart : Chart :=
  mkChart [mkFile "Chart.yaml" "name: app"; mkFile "doc.yaml" brokenDoc;
           mkFile "README.md" "app"]
          (Some (metadataOf "app")) []
          [mkFile "doc.yaml" brokenDoc; mkFile "README.md" "app"] [].


(** ** Further notions and examples *)

Section WalkOrder.

Context {lib : Lib}.

(** [extractCRDKey] gives the CRD object [c] the key [k]. *)
Definition keyIs (k : GroupKind) (c : CRD) : bool :=
  bool_decide (extractCRDKey (File_Data (CRD_File c)) = Ok k).

End WalkOrder.

(** The test of crdless.go line 53 and, for the first of [filesToCopy], of
    crdonly.go line 86. *)
Definition isDocYaml (f : File) : bool := String.eqb (File_Name f) "doc.yaml".

(** [m[a][b]], where [m[a]] is a map. *)
Definition nestedLookup (m : gmap string value) (a b : string) : option value :=
  match m !! a with
  | Some (VMap sub) => sub !! b
  | _ => None
  end.

(** The metadata fields neither command writes into the chart it saves with a
    new name. *)
Definition sameButName (md md' : Metadata) : Prop :=
  Home md' = Home md /\ Sources md' = Sources md /\ Version md' = Version md
  /\ Description md' = Description md /\ Keywords md' = Keywords md
  /\ Maintainers md' = Maintainers md /\ Icon md' = Icon md
  /\ APIVersion md' = APIVersion md /\ Condition md' = Condition md
  /\ Tags md' = Tags md /\ AppVersion md' = AppVersion md
  /\ KubeVersion md' = KubeVersion md.

(** A doc.yaml that is an empty mapping, and what [yaml.Marshal] writes for
    it once the four names are set to app-certified. *)
Definition emptyMappingDoc : string := "{}".

Definition newline : string := String (ascii_of_nat 10) EmptyString.

Definition rewrittenEmptyMappingDoc : string :=
  "chart:" +:+ newline +:+ "  name: app-certified" +:+ newline
  +:+ "project:" +:+ newline +:+ "  name: app-certified" +:+ newline
  +:+ "  shortName: app-certified" +:+ newline
  +:+ "release:" +:+ newline +:+ "  name: app-certified" +:+ newline.

Definition isString (v : option value) (s : string) : bool :=
  match v with
  | Some (VString s') => String.eqb s' s
  | _ => false
  end.

(** [content] is {chart: {name: app-certified}, project: {name:
    app-certified, shortName: app-certified}, release: {name:
    app-certified}}. *)
Definition isRewrittenEmptyMapping (content : gmap string value) : bool :=
  (size content =? 3)
  && match content !! "chart", content !! "project", content !! "release" with
     | Some (VMap c), Some (VMap p), Some (VMap r) =>
         (size c =? 1) && isString (c !! "name") "app-certified"
         && (size p =? 2) && isString (p !! "name") "app-certified"
         && isString (p !! "shortName") "app-certified"
         && (size r =? 1) && isString (r !! "name") "app-certified"
     | _, _, _ => false
     end.

(** The stand-in of above with the empty mapping added to what it decodes
    and the one map of the examples that reaches [yaml.Marshal] added to
    what it encodes. *)
Definition docLib : Lib :=
  mkLib sample_hasManifestExtension sample_Unmarshal_CRD
        (fun data => if String.eqb data emptyMappingDoc then Ok (Some ∅)
                     else sample_Unmarshal_map data)
        (fun content => if isRewrittenEmptyMapping content
                        then Ok rewrittenEmptyMappingDoc
                        else sample_Marshal content).

(** A chart named app with a CRD, a doc.yaml that is an empty mapping, a
    helper template, and an annotation that carries its name. *)
Definition appMetadata : Metadata :=
  mkMetadata "app" "https://example.org" [] "v1.2.3" "An app" [] [] "" "v2" "" ""
             "1.2.3" {[ "charts.openshift.io/name" := "app"; "team" := "infra" ]} "".

Definition appChart : Chart :=
  mkChart [mkFile "Chart.yaml" "name: app"; mkFile "crds/foo.yaml" fooOfRoot;
           mkFile "doc.yaml" emptyMappingDoc; mkFile "README.md" "app";
           mkFile "templates/_helpers.tpl" "helpers";
           mkFile "templates/deployment.yaml" "deployment"]
          (Some appMetadata)
          [mkFile "templates/_helpers.tpl" "helpers";
           mkFile "templates/deployment.yaml" "deployment"]
          [mkFile "crds/foo.yaml" fooOfRoot; mkFile "doc.yaml" emptyMappingDoc;
           mkFile "README.md" "app"]
          [depA].

(** The files of a tree that are not under crds/, node by node: at each
    node its own such files in their order, then the same for its children
    in their order. *)
#[local] Unset Elimination Schemes.
Inductive FileTree : Type :=
| mkFileTree (files : list File) (children : list FileTree).
#[local] Set Elimination Schemes.

Fixpoint otherFiles (ch : Chart) : FileTree :=
  match ch with
  | mkChart _ _ _ files deps =>
      mkFileTree (List.filter (fun f => negb (underCRDs f)) files)
                 (List.map otherFiles deps)
  end.

(** Scenario A with the root's CRD under a name helm does not list: the root
    keeps (g, Foo) in crds/foo.txt, its dependency [depA] in crds/foo.yaml. *)
Definition rootTxt : Chart :=
  mkChart [mkFile "Chart.yaml" "name: root"; mkFile "crds/foo.txt" fooOfRoot]
          (Some (metadataOf "root")) []
          [mkFile "crds/foo.txt" fooOfRoot] [depA].

(** * Properties *)

(** ** The trees *)

(** Induction over a chart and, through the list, over its dependencies. *)
Lemma Chart_tree_ind (P : Chart -> Prop) :
  (forall raw md tpl files deps,
      Forall P deps -> P (mkChart raw md tpl files deps)) ->
  forall ch, P ch.
Proof.
  intros step.
  fix IH 1.
  intros [raw md tpl files deps].
  apply step.
  induction deps as [|d deps IHdeps]; constructor.
  - apply IH.
  - apply IHdeps.
Qed.

Lemma filter_twice {A : Type} (p : A -> bool) (l : list A) :
  List.filter p (List.filter p l) = List.filter p l.
Proof.
  induction l as [|x l IHl]; simpl; [reflexivity|].
  destruct (p x) eqn:Hx; simpl; [rewrite Hx; f_equal|]; exact IHl.
Qed.

Lemma filter_flat_map {A B : Type} (p : B -> bool) (f : A -> list B) (l : list A) :
  List.filter p (List.flat_map f l)
  = List.flat_map (fun x => List.filter p (f x)) l.
Proof.
  induction l as [|x l IHl]; simpl; [reflexivity|].
  rewrite List.filter_app, IHl. reflexivity.
Qed.

Lemma flat_map_ext_Forall {A B : Type} (f g : A -> list B) (l : list A) :
  Forall (fun x => f x = g x) l -> List.flat_map f l = List.flat_map g l.
Proof.
  induction 1 as [|x l Hx _ IHl]; simpl; [reflexivity|].
  rewrite Hx, IHl. reflexivity.
Qed.

Lemma map_ext_Forall' {A B : Type} (f g : A -> B) (l : list A) :
  Forall (fun x => f x = g x) l -> List.map f l = List.map g l.
Proof.
  induction 1 as [|x l Hx _ IHl]; simpl; [reflexivity|].
  rewrite Hx, IHl. reflexivity.
Qed.

(** ** crdless.go: removeCRDsFromChart *)

Lemma removeCRDsFromChart_unfold ch :
  removeCRDsFromChart ch
  = mkChart (Raw ch) (Meta ch) (Templates ch)
            (List.filter (fun f => negb (underCRDs f)) (Files ch))
            (List.map stripDependency (Dependencies ch)).
Proof. destruct ch; reflexivity. Qed.

(** C4. Stripping is idempotent: the transform applied to its own result
    gives that result back, so a second pass removes no file and changes
    nothing. *)
Theorem removeCRDsFromChart_idempotent (ch : Chart) :
  removeCRDsFromChart (removeCRDsFromChart ch) = removeCRDsFromChart ch.
Proof.
  induction ch as [raw md tpl files deps IH] using Chart_tree_ind.
  simpl. f_equal.
  - apply filter_twice.
  - rewrite List.map_map. apply map_ext_Forall'.
    eapply Forall_impl; [exact IH|].
    intros dep Hdep. simpl in Hdep.
    destruct (embeddedArchive dep) eqn:Hguard.
    + destruct (embeddedArchive (removeCRDsFromChart dep)); [exact Hdep|reflexivity].
    + rewrite Hguard. reflexivity.
Qed.

Lemma stripDependency_shape (dep : Chart) :
  (shapeOf (removeCRDsFromChart dep) = shapeOf dep
   /\ nodeCount (removeCRDsFromChart dep) = nodeCount dep) ->
  shapeOf (stripDependency dep) = shapeOf dep
  /\ nodeCount (stripDependency dep) = nodeCount dep.
Proof.
  unfold stripDependency. destruct (embeddedArchive dep); [tauto|split; reflexivity].
Qed.

Lemma removeCRDsFromChart_shape_count (ch : Chart) :
  shapeOf (removeCRDsFromChart ch) = shapeOf ch
  /\ nodeCount (removeCRDsFromChart ch) = nodeCount ch.
Proof.
  induction ch as [raw md tpl files deps IH] using Chart_tree_ind.
  assert (Hdeps : Forall (fun dep =>
            shapeOf (stripDependency dep) = shapeOf dep
            /\ nodeCount (stripDependency dep) = nodeCount dep) deps).
  { eapply Forall_impl; [exact IH|]. apply stripDependency_shape. }
  rewrite removeCRDsFromChart_unfold. simpl.
  rewrite !List.map_map. split.
  - f_equal. apply map_ext_Forall'.
    eapply Forall_impl; [exact Hdeps|]. intros dep [Hs _]. exact Hs.
  - do 2 f_equal. apply map_ext_Forall'.
    eapply Forall_impl; [exact Hdeps|]. intros dep [_ Hn]. exact Hn.
Qed.

(** C5. Stripping keeps the shape of the tree: the name and the metadata of
    every node and the order of its children (the tree without its files is
    the same), the number of nodes, and at the chart itself the name, the
    metadata, the raw files, the templates and the number of children, the
    child at each position being the old child at that position after the
    loop body has seen it. *)
Theorem removeCRDsFromChart_preserves_shape (ch : Chart) :
  shapeOf (removeCRDsFromChart ch) = shapeOf ch
  /\ nodeCount (removeCRDsFromChart ch) = nodeCount ch
  /\ Chart_Name (removeCRDsFromChart ch) = Chart_Name ch
  /\ Meta (removeCRDsFromChart ch) = Meta ch
  /\ Raw (removeCRDsFromChart ch) = Raw ch
  /\ Templates (removeCRDsFromChart ch) = Templates ch
  /\ List.length (Dependencies (removeCRDsFromChart ch))
     = List.length (Dependencies ch)
  /\ forall i : nat,
       Dependencies (removeCRDsFromChart ch) !! i
       = stripDependency <$> (Dependencies ch !! i)
       /\ (shapeOf <$> (Dependencies (removeCRDsFromChart ch) !! i))
          = (shapeOf <$> (Dependencies ch !! i)).
Proof.
  destruct (removeCRDsFromChart_shape_count ch) as [Hshape Hcount].
  repeat split; try assumption;
    try (rewrite removeCRDsFromChart_unfold; reflexivity).
  - rewrite removeCRDsFromChart_unfold. simpl. apply List.length_map.
  - rewrite removeCRDsFromChart_unfold. simpl. apply list_lookup_fmap.
  - rewrite removeCRDsFromChart_unfold. simpl.
    change (List.map stripDependency (Dependencies ch))
      with (stripDependency <$> Dependencies ch).
    rewrite list_lookup_fmap.
    destruct (Dependencies ch !! i) as [dep|]; simpl; [|reflexivity].
    f_equal. apply stripDependency_shape, removeCRDsFromChart_shape_count.
Qed.

(** The files that are not under crds/ stay, at every depth and in their
    order. *)
Lemma removeCRDsFromChart_keeps_other_files (ch : Chart) :
  List.filter (fun f => negb (underCRDs f)) (filesAtAnyDepth (removeCRDsFromChart ch))
  = List.filter (fun f => negb (underCRDs f)) (filesAtAnyDepth ch).
Proof.
  induction ch as [raw md tpl files deps IH] using Chart_tree_ind.
  simpl. rewrite !List.filter_app, filter_twice. f_equal.
  rewrite !filter_flat_map, List.flat_map_concat_map, List.map_map,
    <- List.flat_map_concat_map.
  apply flat_map_ext_Forall.
  eapply Forall_impl; [exact IH|].
  intros dep Hdep. simpl in Hdep.
  destruct (embeddedArchive dep); [exact Hdep|reflexivity].
Qed.

(** Where every dependency at every depth passes the test of line 103, the
    files left at any depth are those that are not under crds/. *)
Lemma removeCRDsFromChart_complete_when_embedded (ch : Chart) :
  allEmbedded ch = true ->
  filesAtAnyDepth (removeCRDsFromChart ch)
  = List.filter (fun f => negb (underCRDs f)) (filesAtAnyDepth ch).
Proof.
  induction ch as [raw md tpl files deps IH] using Chart_tree_ind.
  simpl. intros Hall. rewrite List.filter_app. f_equal.
  rewrite filter_flat_map, List.flat_map_concat_map, List.map_map,
    <- List.flat_map_concat_map.
  apply flat_map_ext_Forall.
  rewrite forallb_forall in Hall. rewrite Forall_forall in IH |- *.
  intros dep Hin.
  assert (Hin' : In dep deps) by (apply list_elem_of_In; exact Hin).
  specialize (Hall dep Hin'). apply andb_prop in Hall as [Hguard Hrec].
  rewrite Hguard. apply (IH dep Hin Hrec).
Qed.

Lemma removeCRDsFromChart_complete_when_embedded_witness :
  allEmbedded rootA = true
  /\ filesAtAnyDepth (removeCRDsFromChart rootA)
     = List.filter (fun f => negb (underCRDs f)) (filesAtAnyDepth rootA).
Proof.
  split; [reflexivity|].
  apply (removeCRDsFromChart_complete_when_embedded rootA). reflexivity.
Defined.

(** C6, at the chart [umbrella]: its dependency [middle] has metadata and no
    file of its own, so line 103 sends it down the branch of line 112 and
    [leaf], below it, is never visited. The tree comes back as it was, with
    crds/bar.yaml still in [leaf]. *)
Theorem removeCRDsFromChart_skips_below_fileless_dependency :
  embeddedArchive middle = false
  /\ removeCRDsFromChart umbrella = umbrella
  /\ In (mkFile "crds/bar.yaml" barOfDep)
        (filesAtAnyDepth (removeCRDsFromChart umbrella))
  /\ underCRDs (mkFile "crds/bar.yaml" barOfDep) = true.
Proof.
  repeat split.
  simpl. right. right. left. reflexivity.
Qed.

(** ** crdonly.go: the collector *)

Section Collector.

Context {lib : Lib}.

Lemma collectCRD_cases (sourceName : string) (st : State) (f : CRD) :
  (exists e, extractCRDKey (File_Data (CRD_File f)) = Err e
             /\ collectCRD sourceName st f
                = print (WarnParseCRD (CRD_Name f) sourceName e) st)
  \/ (exists key existingSource,
        extractCRDKey (File_Data (CRD_File f)) = Ok key
        /\ sourceMap st !! key = Some existingSource
        /\ collectCRD sourceName st f
           = print (WarnDuplicate key sourceName existingSource) st)
  \/ (exists key,
        extractCRDKey (File_Data (CRD_File f)) = Ok key
        /\ sourceMap st !! key = None
        /\ collectCRD sourceName st f = record key (CRD_File f) sourceName st).
Proof.
  unfold collectCRD.
  destruct (extractCRDKey (File_Data (CRD_File f))) as [key|e].
  - destruct (sourceMap st !! key) as [existingSource|] eqn:Hsrc.
    + right. left. exists key, existingSource. auto.
    + right. right. exists key. auto.
  - left. exists e. auto.
Qed.

(** A key that [sourceMap] holds keeps its source and its file through one
    turn of the loop. *)
Lemma collectCRD_keeps (sourceName : string) (st : State) (f : CRD)
    (k : GroupKind) (s : string) :
  sourceMap st !! k = Some s ->
  sourceMap (collectCRD sourceName st f) !! k = Some s
  /\ crdMap (collectCRD sourceName st f) !! k = crdMap st !! k.
Proof.
  intros Hk.
  destruct (collectCRD_cases sourceName st f)
    as [(e & _ & ->) | [(key & src & _ & _ & ->) | (key & _ & Hnone & ->)]];
    simpl; auto.
  assert (key <> k) by congruence.
  rewrite !lookup_insert_ne by assumption. auto.
Qed.

(** A turn on a file of another key, or of no key, leaves key [k] alone. *)
Lemma collectCRD_other_key (sourceName : string) (st : State) (f : CRD)
    (k : GroupKind) :
  extractCRDKey (File_Data (CRD_File f)) <> Ok k ->
  sourceMap (collectCRD sourceName st f) !! k = sourceMap st !! k
  /\ crdMap (collectCRD sourceName st f) !! k = crdMap st !! k.
Proof.
  intros Hk.
  destruct (collectCRD_cases sourceName st f)
    as [(e & _ & ->) | [(key & src & _ & _ & ->) | (key & Hkey & _ & ->)]];
    simpl; auto.
  assert (key <> k) by congruence.
  rewrite !lookup_insert_ne by assumption. auto.
Qed.

(** The first file of key [k] is stored, under the name of the call. *)
Lemma collectCRD_first (sourceName : string) (st : State) (f : CRD)
    (k : GroupKind) :
  extractCRDKey (File_Data (CRD_File f)) = Ok k ->
  sourceMap st !! k = None ->
  sourceMap (collectCRD sourceName st f) !! k = Some sourceName
  /\ crdMap (collectCRD sourceName st f) !! k = Some (CRD_File f).
Proof.
  intros Hk Hnone. unfold collectCRD. rewrite Hk, Hnone. simpl.
  rewrite !lookup_insert_eq. auto.
Qed.

Lemma collectItems_keeps (items : list (string * CRD)) (st : State)
    (k : GroupKind) (s : string) :
  sourceMap st !! k = Some s ->
  sourceMap (collectItems items st) !! k = Some s
  /\ crdMap (collectItems items st) !! k = crdMap st !! k.
Proof.
  revert st. induction items as [|[n f] items IH]; intros st Hk; [auto|].
  simpl. destruct (collectCRD_keeps n st f k s Hk) as [Hsrc Hcrd].
  destruct (IH _ Hsrc) as [Hsrc' Hcrd']. simpl in *. split; congruence.
Qed.

Lemma collectItems_app (xs ys : list (string * CRD)) (st : State) :
  collectItems (xs ++ ys) st = collectItems ys (collectItems xs st).
Proof. apply fold_left_app. Qed.

Lemma collectCRDs_items (ch : Chart) (sourceName : string) (st : State) :
  collectCRDs ch sourceName st
  = collectItems (List.map (pair sourceName) (CRDObjects ch)) st.
Proof.
  unfold collectCRDs, collectItems.
  generalize (CRDObjects ch). intros l. revert st.
  induction l as [|f l IH]; intros st; simpl; [reflexivity|apply IH].
Qed.

(** The command feeds the collector the CRD objects of [collectorInput], in
    that order, from two empty maps. *)
Lemma collectAll_items (ch : Chart) :
  collectAll ch = collectItems (collectorInput ch) (mkState ch ∅ ∅ []).
Proof.
  unfold collectAll, collectorInput.
  rewrite collectItems_app, <- collectCRDs_items.
  generalize (collectCRDs ch (Chart_Name ch) (mkState ch ∅ ∅ [])).
  induction (Dependencies ch) as [|dep deps IH]; intros st; simpl; [reflexivity|].
  rewrite collectItems_app, <- collectCRDs_items. apply IH.
Qed.

Lemma ownCRDObjects_cons (x : File) (files : list File) :
  ownCRDObjects (x :: files)
  = if isCRDObject x then mkCRD (File_Name x) x :: ownCRDObjects files
    else ownCRDObjects files.
Proof. unfold ownCRDObjects. simpl. destruct (isCRDObject x); reflexivity. Qed.

(** Among the own files of one chart, walked from a state without key [k],
    the first that defines [k] is the one stored. *)
Lemma collect_own_first (files : list File) (sourceName : string) (st : State)
    (k : GroupKind) (f : File) :
  sourceMap st !! k = None ->
  List.find (definesKey k) files = Some f ->
  sourceMap (collectItems (List.map (pair sourceName) (ownCRDObjects files)) st) !! k
  = Some sourceName
  /\ crdMap (collectItems (List.map (pair sourceName) (ownCRDObjects files)) st) !! k
     = Some f.
Proof.
  revert st. induction files as [|x files IH]; intros st Hnone Hfind; [discriminate|].
  rewrite ownCRDObjects_cons. simpl in Hfind. unfold definesKey in Hfind.
  destruct (isCRDObject x); simpl in Hfind; [|apply IH; assumption].
  simpl.
  destruct (bool_decide (extractCRDKey (File_Data x) = Ok k)) eqn:Hkey.
  - apply bool_decide_eq_true in Hkey. injection Hfind as <-.
    destruct (collectCRD_first sourceName st (mkCRD (File_Name x) x) k Hkey Hnone)
      as [Hsrc Hcrd].
    destruct (collectItems_keeps
                (List.map (pair sourceName) (ownCRDObjects files))
                _ k sourceName Hsrc) as [Hsrc' Hcrd'].
    split; [exact Hsrc'|]. rewrite Hcrd'. exact Hcrd.
  - apply bool_decide_eq_false in Hkey.
    destruct (collectCRD_other_key sourceName st (mkCRD (File_Name x) x) k Hkey)
      as [Hsrc Hcrd].
    apply IH; [|exact Hfind]. rewrite Hsrc. exact Hnone.
Qed.

Lemma collectorInput_own_first (ch : Chart) :
  exists later,
    collectorInput ch
    = List.map (pair (Chart_Name ch)) (ownCRDObjects (Files ch)) ++ later.
Proof.
  unfold collectorInput. destruct ch as [raw md tpl files deps]. simpl.
  rewrite List.map_app, <- List.app_assoc. eexists. reflexivity.
Qed.

(** C1, for the files helm lists. Where a file of the root chart is a CRD
    object (under crds/ and with a manifest extension) with key [k], the
    file the collector ends with under [k] is the first such file of the
    root, recorded under the root's name; no other file, of a dependency at
    any depth or of anything else, is what the map holds for [k]. *)
Theorem collectAll_root_takes_precedence (ch : Chart) (k : GroupKind) (f : File) :
  List.find (definesKey k) (Files ch) = Some f ->
  crdMap (collectAll ch) !! k = Some f
  /\ sourceMap (collectAll ch) !! k = Some (Chart_Name ch)
  /\ In f (Files ch)
  /\ forall dep g, In dep (Dependencies ch) -> In g (filesAtAnyDepth dep) ->
       g <> f -> crdMap (collectAll ch) !! k <> Some g.
Proof.
  intros Hfind.
  assert (Hmaps : sourceMap (collectAll ch) !! k = Some (Chart_Name ch)
                  /\ crdMap (collectAll ch) !! k = Some f).
  { rewrite collectAll_items.
    destruct (collectorInput_own_first ch) as [later ->].
    rewrite collectItems_app.
    destruct (collect_own_first (Files ch) (Chart_Name ch) (mkState ch ∅ ∅ []) k f)
      as [Hsrc Hcrd]; [apply lookup_empty|exact Hfind|].
    destruct (collectItems_keeps later _ k _ Hsrc) as [Hsrc' Hcrd'].
    split; [exact Hsrc'|]. rewrite Hcrd'. exact Hcrd. }
  destruct Hmaps as [Hsrc Hcrd].
  repeat split; try assumption.
  - apply List.find_some in Hfind. tauto.
  - intros dep g _ _ Hne Hg. rewrite Hcrd in Hg. congruence.
Qed.

End Collector.

Lemma collectAll_root_takes_precedence_witness :
  List.find (definesKey (lib := sampleLib) (mkGroupKind "g" "Foo")) (Files rootA)
  = Some (mkFile "crds/foo.yaml" fooOfRoot)
  /\ crdMap (collectAll (lib := sampleLib) rootA) !! mkGroupKind "g" "Foo"
     = Some (mkFile "crds/foo.yaml" fooOfRoot).
Proof.
  split; [reflexivity|].
  apply (collectAll_root_takes_precedence (lib := sampleLib) rootA
           (mkGroupKind "g" "Foo") (mkFile "crds/foo.yaml" fooOfRoot)).
  reflexivity.
Defined.

(** C1 as it is stated fails for a schema file helm does not list: in
    [rootTxt] the root holds (g, Foo) under crds/ in foo.txt, which
    [CRDObjects] passes over, and the document collected for (g, Foo) is the
    dependency's. *)
Lemma collectAll_passes_over_root_file_without_manifest_extension :
  In (mkFile "crds/foo.txt" fooOfRoot) (Files rootTxt)
  /\ underCRDs (mkFile "crds/foo.txt" fooOfRoot) = true
  /\ extractCRDKey (lib := sampleLib) fooOfRoot = Ok (mkGroupKind "g" "Foo")
  /\ In depA (Dependencies rootTxt)
  /\ In (mkFile "crds/foo.yaml" fooOfDep) (Files depA)
  /\ underCRDs (mkFile "crds/foo.yaml" fooOfDep) = true
  /\ extractCRDKey (lib := sampleLib) fooOfDep = Ok (mkGroupKind "g" "Foo")
  /\ crdMap (collectAll (lib := sampleLib) rootTxt) !! mkGroupKind "g" "Foo"
     = Some (mkFile "crds/foo.yaml" fooOfDep)
  /\ mkFile "crds/foo.yaml" fooOfDep <> mkFile "crds/foo.txt" fooOfRoot.
Proof.
  repeat split; try (left; reflexivity); try reflexivity.
  discriminate.
Qed.

Section CollectorInvariants.

Context {lib : Lib}.

Lemma wellKeyed_empty (ch : Chart) : wellKeyed (mkState ch ∅ ∅ []).
Proof. intros k f Hk. simpl in Hk. rewrite lookup_empty in Hk. discriminate. Qed.

Lemma collectCRD_wellKeyed (sourceName : string) (st : State) (f : CRD) :
  wellKeyed st -> wellKeyed (collectCRD sourceName st f).
Proof.
  intros Hst.
  destruct (collectCRD_cases sourceName st f)
    as [(e & _ & ->) | [(key & src & _ & _ & ->) | (key & Hkey & _ & ->)]];
    try exact Hst.
  intros k g. simpl.
  destruct (decide (key = k)) as [<-|Hne].
  - rewrite !lookup_insert_eq. intros [= <-]. eauto.
  - rewrite !lookup_insert_ne by assumption. apply Hst.
Qed.

Lemma collectItems_wellKeyed (items : list (string * CRD)) (st : State) :
  wellKeyed st -> wellKeyed (collectItems items st).
Proof.
  revert st. induction items as [|[n f] items IH]; intros st Hst; [exact Hst|].
  simpl. apply IH, collectCRD_wellKeyed, Hst.
Qed.

(** What holds of the files of [crdMap] before and of every file walked
    through holds of the files of [crdMap] after. *)
Lemma collectItems_files (P : File -> Prop) (items : list (string * CRD))
    (st : State) :
  (forall k f, crdMap st !! k = Some f -> P f) ->
  (forall it, In it items -> P (CRD_File it.2)) ->
  forall k f, crdMap (collectItems items st) !! k = Some f -> P f.
Proof.
  revert st. induction items as [|[n c] items IH]; intros st Hst Hitems; [exact Hst|].
  simpl. apply IH; [|intros it Hit; apply Hitems; right; exact Hit].
  destruct (collectCRD_cases n st c)
    as [(e & _ & ->) | [(key & src & _ & _ & ->) | (key & _ & _ & ->)]];
    try exact Hst.
  intros k f. simpl.
  destruct (decide (key = k)) as [<-|Hne].
  - rewrite lookup_insert_eq. intros [= <-]. apply (Hitems (n, c)). left. reflexivity.
  - rewrite lookup_insert_ne by assumption. apply Hst.
Qed.

(** The CRD objects of a chart are files of the chart or of a chart below
    it, each under its own name and passing the test of [CRDObjects]. *)
Lemma CRDObjects_files (ch : Chart) (c : CRD) :
  In c (CRDObjects ch) ->
  In (CRD_File c) (filesAtAnyDepth ch)
  /\ isCRDObject (CRD_File c) = true
  /\ CRD_Name c = File_Name (CRD_File c).
Proof.
  revert c. induction ch as [raw md tpl files deps IH] using Chart_tree_ind.
  intros c. simpl. rewrite !List.in_app_iff, !List.in_flat_map.
  intros [Hown | (dep & Hdep & Hc)].
  - unfold ownCRDObjects in Hown. apply List.in_map_iff in Hown as (f & <- & Hf).
    apply List.filter_In in Hf as [Hf Htest]. simpl. auto.
  - rewrite Forall_forall in IH.
    destruct (IH dep (proj2 (list_elem_of_In _ _) Hdep) c Hc) as (Hin & Htest & Hname).
    split; [|auto]. right. exists dep. auto.
Qed.

Lemma collectorInput_files (ch : Chart) (it : string * CRD) :
  In it (collectorInput ch) ->
  In (CRD_File it.2) (filesAtAnyDepth ch)
  /\ isCRDObject (CRD_File it.2) = true.
Proof.
  unfold collectorInput. rewrite List.in_app_iff, List.in_map_iff, List.in_flat_map.
  intros [(c & <- & Hc) | (dep & Hdep & Hit)].
  - simpl. destruct (CRDObjects_files ch c Hc) as (? & ? & _). auto.
  - apply List.in_map_iff in Hit as (c & <- & Hc). simpl.
    destruct (CRDObjects_files dep c Hc) as (Hin & Htest & _).
    split; [|exact Htest].
    destruct ch as [raw md tpl files deps]. simpl in *.
    apply List.in_app_iff. right. apply List.in_flat_map. exists dep. auto.
Qed.

Lemma collectItems_never_overwrites (items : list (string * CRD)) (st : State)
    (k : GroupKind) (f : File) :
  wellKeyed st ->
  crdMap st !! k = Some f ->
  crdMap (collectItems items st) !! k = Some f.
Proof.
  intros Hst Hk. destruct (Hst k f Hk) as [_ [s Hs]].
  destruct (collectItems_keeps items st k s Hs) as [_ ->]. exact Hk.
Qed.

(** C3. From the two empty maps of lines 55 and 56, whatever the chart: the
    collector's last state is the one after all of [collectorInput]; every
    file of [crdMap] sits under the key [extractCRDKey] gives it, so two of
    the collected files with the same key are one file; and a key that holds
    a file after [n] CRD objects holds the same file after any [m >= n] of
    them, the later objects of that key included. *)
Theorem collector_unique_first_writer_wins (ch : Chart) :
  let items := collectorInput ch in
  let after := fun n : nat => collectItems (take n items) (mkState ch ∅ ∅ []) in
  collectAll ch = after (List.length items)
  /\ (forall k f, crdMap (collectAll ch) !! k = Some f ->
        extractCRDKey (File_Data f) = Ok k)
  /\ (forall f1 f2, In f1 (crdFiles (collectAll ch)) ->
        In f2 (crdFiles (collectAll ch)) ->
        extractCRDKey (File_Data f1) = extractCRDKey (File_Data f2) ->
        f1 = f2)
  /\ (forall (n m : nat) k f, n <= m ->
        crdMap (after n) !! k = Some f -> crdMap (after m) !! k = Some f).
Proof.
  intros items after.
  assert (Hkeyed : wellKeyed (collectAll ch)).
  { rewrite collectAll_items. apply collectItems_wellKeyed, wellKeyed_empty. }
  assert (Hfile : forall f, In f (crdFiles (collectAll ch)) ->
            exists k, crdMap (collectAll ch) !! k = Some f).
  { intros f Hf. unfold crdFiles in Hf.
    apply list_elem_of_In, list_elem_of_fmap in Hf as ([k g] & -> & Hkg).
    exists k. apply elem_of_map_to_list. exact Hkg. }
  repeat split.
  - unfold after. rewrite firstn_all. apply collectAll_items.
  - intros k f Hk. apply (Hkeyed k f Hk).
  - intros f1 f2 Hf1 Hf2 Hsame.
    destruct (Hfile f1 Hf1) as [k1 Hk1]. destruct (Hfile f2 Hf2) as [k2 Hk2].
    destruct (Hkeyed k1 f1 Hk1) as [Hkey1 _].
    destruct (Hkeyed k2 f2 Hk2) as [Hkey2 _].
    assert (k1 = k2) by congruence. subst k2. congruence.
  - intros n m k f Hnm Hn. unfold after in *.
    assert (Hsplit : take m items = take n items ++ drop n (take m items)).
    { rewrite <- (take_drop n (take m items)) at 1.
      rewrite take_take. f_equal. f_equal. lia. }
    rewrite Hsplit, collectItems_app.
    apply collectItems_never_overwrites; [|exact Hn].
    apply collectItems_wellKeyed, wellKeyed_empty.
Qed.

End CollectorInvariants.

Lemma collector_unique_first_writer_wins_witness :
  crdMap (collectItems (lib := sampleLib)
            (take 3 (collectorInput (lib := sampleLib) rootA))
            (mkState rootA ∅ ∅ [])) !! mkGroupKind "g" "Foo"
  = Some (mkFile "crds/foo.yaml" fooOfRoot).
Proof.
  apply (proj2 (proj2 (proj2
           (collector_unique_first_writer_wins (lib := sampleLib) rootA)))
           1 3 (mkGroupKind "g" "Foo") (mkFile "crds/foo.yaml" fooOfRoot)).
  - lia.
  - reflexivity.
Defined.

(** C2, at Scenario A of the specification ([rootA], whose one dependency
    [depA] defines (g, Foo) as well). [CRDObjects] of the root lists the
    files of [depA] too, so the call of line 59 meets the dependency's file
    under the root's own name and the call of line 64 meets it again: two
    duplicate warnings, the first with the root as both sources. *)
Theorem collectAll_scenarioA_warns_twice :
  stdout (collectAll (lib := sampleLib) rootA)
  = [WarnDuplicate (mkGroupKind "g" "Foo") "root" "root";
     WarnDuplicate (mkGroupKind "g" "Foo") "dep" "root"]
  /\ List.length (List.filter isDuplicateWarning
                    (stdout (collectAll (lib := sampleLib) rootA))) = 2.
Proof. split; reflexivity. Qed.

(** Had each call walked through the own files of its chart alone, Scenario A
    would end with the one warning the dependency is due. *)
Lemma collect_own_scenarioA_warns_once :
  stdout (collectItems (lib := sampleLib)
            (List.map (pair "root") (ownCRDObjects (lib := sampleLib) (Files rootA))
             ++ List.map (pair "dep") (ownCRDObjects (lib := sampleLib) (Files depA)))
            (mkState rootA ∅ ∅ []))
  = [WarnDuplicate (mkGroupKind "g" "Foo") "dep" "root"].
Proof. reflexivity. Qed.

(** ** crdonly.go: extractCRDKey *)

Section KeyExtractor.

Context {lib : Lib}.

Lemma extractCRDKey_unfold (data : string) :
  extractCRDKey data
  = match yaml_Unmarshal_CRD data with
    | Err e => Err e
    | Ok crd =>
        if decide (TypeMeta_APIVersion crd <> ""
                   /\ TypeMeta_Kind crd = "CustomResourceDefinition")
        then Ok (mkGroupKind (Spec_Group (Spec crd))
                             (Names_Kind (Spec_Names (Spec crd))))
        else Err "not a valid CustomResourceDefinition"
    end.
Proof.
  unfold extractCRDKey. destruct (yaml_Unmarshal_CRD data) as [crd|e]; [|reflexivity].
  destruct (String.eqb_spec (TypeMeta_APIVersion crd) "") as [Hver|Hver];
    destruct (String.eqb_spec (TypeMeta_Kind crd) "CustomResourceDefinition")
      as [Hkind|Hkind]; simpl; case_decide; tauto.
Qed.

Lemma extractCRDKey_Ok_iff (data : string) (k : GroupKind) :
  extractCRDKey data = Ok k <->
  exists crd,
    yaml_Unmarshal_CRD data = Ok crd
    /\ TypeMeta_APIVersion crd <> ""
    /\ TypeMeta_Kind crd = "CustomResourceDefinition"
    /\ k = mkGroupKind (Spec_Group (Spec crd)) (Names_Kind (Spec_Names (Spec crd))).
Proof.
  rewrite extractCRDKey_unfold.
  destruct (yaml_Unmarshal_CRD data) as [crd|e].
  - case_decide as Hvalid; split.
    + intros [= <-]. exists crd. tauto.
    + intros (crd' & [= <-] & _ & _ & ->). reflexivity.
    + discriminate.
    + intros (crd' & [= <-] & ? & ? & _). tauto.
  - split; [discriminate|]. intros (crd & [=] & _).
Qed.

Lemma extractCRDKey_not_valid (data : string) (crd : CustomResourceDefinition) :
  yaml_Unmarshal_CRD data = Ok crd ->
  TypeMeta_APIVersion crd = "" \/ TypeMeta_Kind crd <> "CustomResourceDefinition" ->
  extractCRDKey data = Err "not a valid CustomResourceDefinition".
Proof.
  intros Hparse Hbad. rewrite extractCRDKey_unfold, Hparse.
  case_decide; [tauto|reflexivity].
Qed.

Lemma collectCRD_on_error (e : error) (sourceName : string) (st : State) (f : CRD) :
  extractCRDKey (File_Data (CRD_File f)) = Err e ->
  collectCRD sourceName st f
  = mkState (loaded st) (crdMap st) (sourceMap st)
            (stdout st ++ [WarnParseCRD (CRD_Name f) sourceName e]).
Proof. intros Herr. unfold collectCRD. rewrite Herr. reflexivity. Qed.

(** C8. [extractCRDKey] gives a key exactly when the document decodes, its
    apiVersion is not empty and its kind is CustomResourceDefinition, and the
    key is then (spec.group, spec.names.kind). Otherwise it gives an error,
    the decoder's own or "not a valid CustomResourceDefinition", and the
    collector prints a warning for the file and goes on with its maps as
    they were. *)
Theorem extractCRDKey_spec (data : string) :
  (forall k,
      extractCRDKey data = Ok k <->
      exists crd,
        yaml_Unmarshal_CRD data = Ok crd
        /\ TypeMeta_APIVersion crd <> ""
        /\ TypeMeta_Kind crd = "CustomResourceDefinition"
        /\ k = mkGroupKind (Spec_Group (Spec crd)) (Names_Kind (Spec_Names (Spec crd))))
  /\ ((exists k, extractCRDKey data = Ok k) \/ (exists e, extractCRDKey data = Err e))
  /\ (forall e, yaml_Unmarshal_CRD data = Err e -> extractCRDKey data = Err e)
  /\ (forall crd,
        yaml_Unmarshal_CRD data = Ok crd ->
        TypeMeta_APIVersion crd = "" \/ TypeMeta_Kind crd <> "CustomResourceDefinition" ->
        extractCRDKey data = Err "not a valid CustomResourceDefinition")
  /\ (forall e sourceName st f,
        File_Data (CRD_File f) = data ->
        extractCRDKey data = Err e ->
        collectCRD sourceName st f
        = mkState (loaded st) (crdMap st) (sourceMap st)
                  (stdout st ++ [WarnParseCRD (CRD_Name f) sourceName e])).
Proof.
  repeat split.
  - apply extractCRDKey_Ok_iff.
  - apply extractCRDKey_Ok_iff.
  - destruct (extractCRDKey data) as [k|e]; [left|right]; eexists; reflexivity.
  - intros e Hparse. unfold extractCRDKey. rewrite Hparse. reflexivity.
  - apply extractCRDKey_not_valid.
  - intros e sourceName st f <-. apply collectCRD_on_error.
Qed.

End KeyExtractor.

Lemma extractCRDKey_spec_witness :
  extractCRDKey (lib := sampleLib) fooOfDep = Ok (mkGroupKind "g" "Foo")
  /\ extractCRDKey (lib := sampleLib) configMapDoc
     = Err "not a valid CustomResourceDefinition".
Proof.
  split.
  - apply (proj1 (extractCRDKey_spec (lib := sampleLib) fooOfDep)).
    exists (definitionOf "g" "Foo"). repeat split. discriminate.
  - apply (proj1 (proj2 (proj2 (proj2
             (extractCRDKey_spec (lib := sampleLib) configMapDoc))))
             (mkCustomResourceDefinition "ConfigMap" "v1" (mkSpec "" (mkNames "")))).
    + reflexivity.
    + right. discriminate.
Defined.

(** ** crdonly.go: modifyDocYaml *)

(** [SetNestedField] with two fields, case by case on the first. *)
Lemma SetNestedField_two (m : gmap string value) (v : value) (a b : string) :
  SetNestedField (Some m) v [a; b]
  = match m !! a with
    | None => Done (<[a := VMap (<[b := v]> ∅)]> m)
    | Some val =>
        match asMap val with
        | Some valMap => Done (<[a := VMap (<[b := v]> valMap)]> m)
        | None =>
            Fail ("value cannot be set because " +:+ jsonPath [a]
                  +:+ " is not a map[string]interface{}")
        end
    end.
Proof.
  unfold SetNestedField, setNestedFieldNoCopy. simpl.
  destruct (m !! a) as [val|]; [|reflexivity].
  destruct (asMap val); reflexivity.
Qed.

(** Such a call fails on a value at the first field that is not a map, and
    otherwise changes the map at that field alone; it does not panic. *)
Lemma SetNestedField_two_cases (m : gmap string value) (v : value) (a b : string) :
  (exists e val, SetNestedField (Some m) v [a; b] = Fail e
                 /\ m !! a = Some val /\ asMap val = None)
  \/ (exists m', SetNestedField (Some m) v [a; b] = Done m'
                 /\ (forall k, k <> a -> m' !! k = m !! k)
                 /\ (forall val, m !! a = Some val -> asMap val <> None)).
Proof.
  rewrite SetNestedField_two.
  destruct (m !! a) as [val|] eqn:Ha.
  - destruct (asMap val) as [valMap|] eqn:Hval.
    + right. eexists. split; [reflexivity|]. split.
      * intros k Hk. apply lookup_insert_ne. congruence.
      * intros val' [= <-]. congruence.
    + left. eauto.
  - right. eexists. split; [reflexivity|]. split.
    + intros k Hk. apply lookup_insert_ne. congruence.
    + discriminate.
Qed.

Section DocumentRewriter.

Context {lib : Lib}.

Lemma modifyDocYaml_parse_error (data newChartName : string) (e : error) :
  yaml_Unmarshal_map data = Err e -> modifyDocYaml data newChartName = Fail e.
Proof. intros Hparse. unfold modifyDocYaml. rewrite Hparse. reflexivity. Qed.

Lemma modifyDocYaml_non_map (data newChartName : string)
    (content : gmap string value) (key : string) (val : value) :
  yaml_Unmarshal_map data = Ok (Some content) ->
  In key ["project"; "chart"; "release"] ->
  content !! key = Some val ->
  asMap val = None ->
  exists e, modifyDocYaml data newChartName = Fail e.
Proof.
  intros Hparse Hkey Hval Hnot. unfold modifyDocYaml. rewrite Hparse.
  destruct (SetNestedField_two_cases content (VString newChartName) "project" "name")
    as [(e & _ & -> & _) | (c1 & -> & Hc1 & Hp1)]; [eauto|]. cbn [mbind outcome_bind].
  destruct (SetNestedField_two_cases c1 (VString newChartName) "project" "shortName")
    as [(e & _ & -> & _) | (c2 & -> & Hc2 & _)]; [eauto|]. cbn [mbind outcome_bind].
  destruct (SetNestedField_two_cases c2 (VString newChartName) "chart" "name")
    as [(e & _ & -> & _) | (c3 & -> & Hc3 & Hp3)]; [eauto|]. cbn [mbind outcome_bind].
  destruct (SetNestedField_two_cases c3 (VString newChartName) "release" "name")
    as [(e & _ & -> & _) | (c4 & -> & _ & Hp4)]; [eauto|]. cbn [mbind outcome_bind].
  exfalso.
  destruct Hkey as [<-|[<-|[<-|[]]]].
  - exact (Hp1 val Hval Hnot).
  - apply (Hp3 val); [|exact Hnot].
    rewrite Hc2, Hc1 by discriminate. exact Hval.
  - apply (Hp4 val); [|exact Hnot].
    rewrite Hc3, Hc2, Hc1 by discriminate. exact Hval.
Qed.

(** On a document that leaves the map nil, the first store of
    [SetNestedField] panics. *)
Lemma modifyDocYaml_panics_on_nil_map (data newChartName : string) :
  yaml_Unmarshal_map data = Ok None ->
  modifyDocYaml data newChartName = Panic "assignment to entry in nil map".
Proof. intros Hparse. unfold modifyDocYaml. rewrite Hparse. reflexivity. Qed.

(** C9. On a document that decodes to a map, [modifyDocYaml] returns an
    error as soon as the map holds, under project, chart or release, a
    value that is not a map; and each of its four calls of [SetNestedField]
    makes the level of its first field only where the map has nothing
    there, goes into the map that is there, and fails on anything else. *)
Theorem modifyDocYaml_fails_on_non_map_level (data newChartName : string)
    (content : gmap string value) :
  yaml_Unmarshal_map data = Ok (Some content) ->
  (forall key val,
      In key ["project"; "chart"; "release"] ->
      content !! key = Some val ->
      asMap val = None ->
      exists e, modifyDocYaml data newChartName = Fail e)
  /\ (forall (m : gmap string value) (a b : string),
        SetNestedField (Some m) (VString newChartName) [a; b]
        = match m !! a with
          | None => Done (<[a := VMap (<[b := VString newChartName]> ∅)]> m)
          | Some (VMap valMap) =>
              Done (<[a := VMap (<[b := VString newChartName]> valMap)]> m)
          | Some _ =>
              Fail ("value cannot be set because " +:+ jsonPath [a]
                    +:+ " is not a map[string]interface{}")
          end).
Proof.
  intros Hparse. split.
  - intros key val. apply modifyDocYaml_non_map. exact Hparse.
  - intros m a b. rewrite SetNestedField_two.
    destruct (m !! a) as [[]|]; reflexivity.
Qed.

End DocumentRewriter.

Lemma modifyDocYaml_fails_on_non_map_level_witness :
  yaml_Unmarshal_map (Lib := sampleLib) scalarProjectDoc
  = Ok (Some {[ "project" := VString "hello" ]})
  /\ exists e, modifyDocYaml (lib := sampleLib) scalarProjectDoc "app-certified" = Fail e.
Proof.
  split; [reflexivity|].
  apply (proj1 (modifyDocYaml_fails_on_non_map_level (lib := sampleLib)
                  scalarProjectDoc "app-certified"
                  {[ "project" := VString "hello" ]} eq_refl)
           "project" (VString "hello")).
  - left. reflexivity.
  - reflexivity.
  - reflexivity.
Defined.

(** ** The two commands on a doc.yaml that cannot be rewritten *)

Lemma doc_yaml_not_under_crds (f : File) :
  String.eqb (File_Name f) "doc.yaml" = true -> underCRDs f = false.
Proof. intros Hname. apply String.eqb_eq in Hname. unfold underCRDs. rewrite Hname. reflexivity. Qed.

Lemma find_doc_after_filter (files : list File) :
  List.find (fun f => String.eqb (File_Name f) "doc.yaml")
            (List.filter (fun f => negb (underCRDs f)) files)
  = List.find (fun f => String.eqb (File_Name f) "doc.yaml") files.
Proof.
  induction files as [|x files IH]; [reflexivity|]. simpl.
  destruct (String.eqb (File_Name x) "doc.yaml") eqn:Hdoc.
  - rewrite (doc_yaml_not_under_crds x Hdoc). simpl. rewrite Hdoc. reflexivity.
  - destruct (underCRDs x); simpl; [|rewrite Hdoc]; exact IH.
Qed.

Section RewriteFailure.

Context {lib : Lib}.

(** crdless.go, lines 52-61, when [modifyDocYaml] returns an error: the list
    of files is as it was and one warning is printed. *)
Lemma rewriteDoc_on_error (files : list File) (newChartName : string)
    (doc : File) (e : error) :
  List.find (fun f => String.eqb (File_Name f) "doc.yaml") files = Some doc ->
  modifyDocYaml (File_Data doc) newChartName = Fail e ->
  rewriteDoc files newChartName = Done (files, [WarnModifyDoc e]).
Proof.
  induction files as [|x files IH]; [discriminate|]. simpl.
  destruct (String.eqb (File_Name x) "doc.yaml").
  - intros [= <-] ->. reflexivity.
  - intros Hfind Hfail. rewrite (IH Hfind Hfail). reflexivity.
Qed.

(** crdonly.go, lines 85-101, for a name other than doc.yaml: the first file
    of that name, if any, joins [extraFiles] and nothing is printed. *)
Lemma copyFile_verbatim (raw : list File) (newChartName name : string)
    (acc : list File * list Event) :
  String.eqb name "doc.yaml" = false ->
  copyFile raw newChartName name acc
  = Done (acc.1 ++ match List.find (fun f => String.eqb (File_Name f) name) raw with
                   | Some f => [f]
                   | None => []
                   end, acc.2).
Proof.
  intros Hname. unfold copyFile.
  destruct (List.find _ raw) as [f|].
  - rewrite Hname. reflexivity.
  - rewrite List.app_nil_r. destruct acc; reflexivity.
Qed.

Lemma copyFiles_verbatim (raw : list File) (newChartName : string)
    (names : list string) (acc : list File * list Event) :
  Forall (fun name => String.eqb name "doc.yaml" = false) names ->
  exists copied,
    copyFiles raw newChartName names acc = Done (acc.1 ++ copied, acc.2)
    /\ forall g, In g copied -> File_Name g <> "doc.yaml".
Proof.
  intros Hnames. revert acc.
  induction Hnames as [|name names Hname _ IH]; intros acc.
  - exists []. simpl. rewrite List.app_nil_r. destruct acc. split; [reflexivity|tauto].
  - simpl. rewrite (copyFile_verbatim raw newChartName name acc Hname).
    cbn [mbind outcome_bind].
    destruct (IH (acc.1 ++ match List.find (fun f => String.eqb (File_Name f) name) raw with
                           | Some f => [f]
                           | None => []
                           end, acc.2)) as (copied & -> & Hcopied).
    simpl. rewrite <- List.app_assoc. eexists. split; [reflexivity|].
    intros g Hg. apply List.in_app_iff in Hg as [Hg|Hg]; [|exact (Hcopied g Hg)].
    destruct (List.find _ raw) as [f|] eqn:Hfind; [|destruct Hg].
    destruct Hg as [<-|[]].
    apply List.find_some in Hfind as [_ Heq]. apply String.eqb_eq in Heq.
    intros Hdoc. rewrite Heq in Hdoc. rewrite Hdoc in Hname. discriminate.
Qed.

(** The loop over [filesToCopy] when the doc.yaml of [ch.Raw] cannot be
    rewritten: a warning, and no file of that name among [extraFiles]. *)
Lemma copyFiles_doc_on_error (raw : list File) (newChartName : string)
    (printed : list Event) (doc : File) (e : error) :
  List.find (fun f => String.eqb (File_Name f) "doc.yaml") raw = Some doc ->
  modifyDocYaml (File_Data doc) newChartName = Fail e ->
  exists copied,
    copyFiles raw newChartName filesToCopy ([], printed)
    = Done (copied, printed ++ [WarnModifyDoc e])
    /\ forall g, In g copied -> File_Name g <> "doc.yaml".
Proof.
  intros Hfind Hfail. unfold filesToCopy.
  change (copyFiles raw newChartName
            ("doc.yaml" :: ["README.md"; "values.yaml"; "values.schema.json"; ".helmignore"])
            ([], printed))
    with (acc ← copyFile raw newChartName "doc.yaml" ([], printed);
          copyFiles raw newChartName
            ["README.md"; "values.yaml"; "values.schema.json"; ".helmignore"] acc).
  unfold copyFile at 1. rewrite Hfind. simpl String.eqb. cbv iota. rewrite Hfail.
  cbn [mbind outcome_bind fst snd].
  destruct (copyFiles_verbatim raw newChartName
              ["README.md"; "values.yaml"; "values.schema.json"; ".helmignore"]
              ([], printed ++ [WarnModifyDoc e])) as (copied & -> & Hcopied).
  - repeat constructor.
  - exists copied. split; [reflexivity|exact Hcopied].
Qed.

(** The files of the chart the CRD-only command saves. *)
Lemma crdOnly_files (ch : Chart) (semver : bool) (md : Metadata)
    (acc : list File * list Event) :
  Meta ch = Some md ->
  copyFiles (Raw ch) (Name md +:+ "-certified-crds") filesToCopy
            ([], stdout (collectAll ch)) = Done acc ->
  exists out,
    crdOnly ch semver = Done (out, acc.2)
    /\ Files out = crdFiles (collectAll ch) ++ acc.1 ++ templateHelpers ch.
Proof.
  intros Hmeta Hcopy. unfold crdOnly. rewrite Hmeta, Hcopy.
  cbn [mbind outcome_bind]. unfold renameChart. cbn [Meta].
  destruct (Annotations _ !! "charts.openshift.io/name");
    cbn [mbind outcome_bind setMeta Meta]; destruct semver;
    eexists; (split; [reflexivity|reflexivity]).
Qed.

Lemma crdFiles_under_crds (ch : Chart) (g : File) :
  In g (crdFiles (collectAll ch)) -> isCRDObject g = true.
Proof.
  intros Hg. unfold crdFiles in Hg.
  apply list_elem_of_In, list_elem_of_fmap in Hg as ([k f] & -> & Hkf).
  apply elem_of_map_to_list in Hkf. revert k f Hkf.
  rewrite collectAll_items.
  apply (collectItems_files (fun f => isCRDObject f = true)).
  - intros k f Hk. simpl in Hk. rewrite lookup_empty in Hk. discriminate.
  - intros it Hit. apply (collectorInput_files ch it Hit).
Qed.

(** What each command does when the doc.yaml it looks up does not
    decode, neither command stops: the CRD-less command prints a warning and
    saves the stripped chart with that doc.yaml as it was; the CRD-only
    command prints a warning and saves a chart with no doc.yaml at all. *)
Theorem rewrite_failure_warns_and_goes_on (ch : Chart) (semver : bool)
    (md : Metadata) :
  Meta ch = Some md ->
  (forall doc e,
      List.find (fun f => String.eqb (File_Name f) "doc.yaml") (Files ch) = Some doc ->
      yaml_Unmarshal_map (File_Data doc) = Err e ->
      exists out,
        crdLess ch = Done (out, [WarnModifyDoc e])
        /\ In doc (Files out)
        /\ Files out = List.filter (fun f => negb (underCRDs f)) (Files ch))
  /\ (forall doc e,
        List.find (fun f => String.eqb (File_Name f) "doc.yaml") (Raw ch) = Some doc ->
        yaml_Unmarshal_map (File_Data doc) = Err e ->
        exists out evs,
          crdOnly ch semver = Done (out, evs)
          /\ In (WarnModifyDoc e) evs
          /\ forall g, In g (Files out) -> File_Name g <> "doc.yaml").
Proof.
  intros Hmeta. split.
  - intros doc e Hfind Hparse.
    unfold crdLess. rewrite Hmeta.
    rewrite removeCRDsFromChart_unfold. cbn [setMeta Files Raw Templates Dependencies].
    rewrite (rewriteDoc_on_error _ _ doc e).
    + cbn [mbind outcome_bind fst snd setFiles Files]. eexists.
      split; [reflexivity|]. split; [|reflexivity]. cbn [Files].
      rewrite <- find_doc_after_filter in Hfind.
      apply List.find_some in Hfind. tauto.
    + rewrite find_doc_after_filter. exact Hfind.
    + apply modifyDocYaml_parse_error, Hparse.
  - intros doc e Hfind Hparse.
    destruct (copyFiles_doc_on_error (Raw ch) (Name md +:+ "-certified-crds")
                (stdout (collectAll ch)) doc e Hfind)
      as (copied & Hcopy & Hcopied).
    { apply modifyDocYaml_parse_error, Hparse. }
    destruct (crdOnly_files ch semver md _ Hmeta Hcopy) as (out & Hrun & Hfiles).
    exists out, (stdout (collectAll ch) ++ [WarnModifyDoc e]).
    split; [exact Hrun|]. split.
    + apply List.in_app_iff. right. left. reflexivity.
    + intros g Hg Hname. rewrite Hfiles in Hg. cbn [fst] in Hg.
      rewrite !List.in_app_iff in Hg. destruct Hg as [Hg|[Hg|Hg]].
      * apply crdFiles_under_crds in Hg. unfold isCRDObject in Hg.
        rewrite Hname in Hg. discriminate.
      * exact (Hcopied g Hg Hname).
      * unfold templateHelpers in Hg. apply List.filter_In in Hg as [_ Hg].
        rewrite Hname in Hg. discriminate.
Qed.

End RewriteFailure.

Lemma rewrite_failure_warns_and_goes_on_witness :
  exists out,
    crdLess (lib := sampleLib) brokenDocChart
    = Done (out, [WarnModifyDoc "yaml: did not find expected node content"])
    /\ In (mkFile "doc.yaml" brokenDoc) (Files out)
    /\ Files out
       = List.filter (fun f => negb (underCRDs f)) (Files brokenDocChart).
Proof.
  apply (proj1 (rewrite_failure_warns_and_goes_on (lib := sampleLib)
                  brokenDocChart true (metadataOf "app") eq_refl)
           (mkFile "doc.yaml" brokenDoc)
           "yaml: did not find expected node content").
  - reflexivity.
  - reflexivity.
Defined.

(** C7, at [brokenDocChart], whose doc.yaml is not YAML. The CRD-less
    command prints the warning and saves the chart with that doc.yaml as it
    was. The CRD-only command prints the same warning on the same error and
    saves a chart that holds README.md alone: the bytes of the doc.yaml are
    in no file of it. *)
Lemma crdOnly_drops_doc_it_cannot_rewrite :
  List.find (fun f => String.eqb (File_Name f) "doc.yaml") (Raw brokenDocChart)
  = Some (mkFile "doc.yaml" brokenDoc)
  /\ yaml_Unmarshal_map (Lib := sampleLib) brokenDoc
     = Err "yaml: did not find expected node content"
  /\ (exists out,
        crdLess (lib := sampleLib) brokenDocChart
        = Done (out, [WarnModifyDoc "yaml: did not find expected node content"])
        /\ In (mkFile "doc.yaml" brokenDoc) (Files out))
  /\ exists out,
       crdOnly (lib := sampleLib) brokenDocChart true
       = Done (out, [WarnModifyDoc "yaml: did not find expected node content"])
       /\ Files out = [mkFile "README.md" "app"]
       /\ ~ In (mkFile "doc.yaml" brokenDoc) (Files out)
       /\ forallb (fun g => negb (String.eqb (File_Data g) brokenDoc)) (Files out) = true.
Proof.
  split; [reflexivity|]. split; [reflexivity|]. split.
  - eexists. split; [vm_compute; reflexivity|]. left. reflexivity.
  - eexists. split; [vm_compute; reflexivity|].
    split; [reflexivity|]. split; [|reflexivity].
    simpl. intros [H|[]]. discriminate H.
Qed.

Lemma modifyDocYaml_panics_on_nil_map_witness :
  modifyDocYaml (lib := sampleLib) emptyDoc "app-certified"
  = Panic "assignment to entry in nil map".
Proof.
  apply (modifyDocYaml_panics_on_nil_map (lib := sampleLib) emptyDoc "app-certified").
  reflexivity.
Defined.

(** ** crdonly.go: the walk of the collector as a whole *)

Section CollectorWalk.

Context {lib : Lib}.

(** After a walk, every key met on the way is a key of [sourceMap]. *)
Lemma collectItems_sources (items : list (string * CRD)) (st : State)
    (it : string * CRD) (k : GroupKind) :
  In it items ->
  extractCRDKey (File_Data (CRD_File it.2)) = Ok k ->
  is_Some (sourceMap (collectItems items st) !! k).
Proof.
  revert st. induction items as [|[n c] items IH]; intros st Hin Hkey; [destruct Hin|].
  simpl. destruct Hin as [<-|Hin]; [|apply IH; assumption].
  simpl in Hkey.
  assert (Hnow : is_Some (sourceMap (collectCRD n st c) !! k)).
  { unfold collectCRD. rewrite Hkey.
    destruct (sourceMap st !! k) as [src|] eqn:Hsrc; simpl.
    - rewrite Hsrc. eauto.
    - rewrite lookup_insert_eq. eauto. }
  destruct Hnow as [s Hs].
  destruct (collectItems_keeps items _ k s Hs) as [Hs' _]. eauto.
Qed.

(** A walk through files whose keys [sourceMap] holds already changes
    neither map. *)
Lemma collectItems_rewalk (items : list (string * CRD)) (st : State) :
  (forall it k, In it items ->
     extractCRDKey (File_Data (CRD_File it.2)) = Ok k ->
     is_Some (sourceMap st !! k)) ->
  crdMap (collectItems items st) = crdMap st
  /\ sourceMap (collectItems items st) = sourceMap st.
Proof.
  revert st. induction items as [|[n c] items IH]; intros st Hseen; [auto|].
  simpl.
  assert (Hstep : crdMap (collectCRD n st c) = crdMap st
                  /\ sourceMap (collectCRD n st c) = sourceMap st).
  { destruct (collectCRD_cases n st c)
      as [(e & _ & ->) | [(key & src & _ & _ & ->) | (key & Hkey & Hnone & _)]];
      auto.
    destruct (Hseen (n, c) key (or_introl eq_refl) Hkey) as [s Hs]. congruence. }
  destruct Hstep as [Hcrd Hsrc].
  destruct (IH (collectCRD n st c)) as [Hcrd' Hsrc'].
  - intros it k Hit Hkey. rewrite Hsrc. apply (Hseen it k); [right|]; assumption.
  - split; congruence.
Qed.

Lemma CRDObjects_of_dependency (ch dep : Chart) (c : CRD) :
  In dep (Dependencies ch) -> In c (CRDObjects dep) -> In c (CRDObjects ch).
Proof.
  destruct ch as [raw md tpl files deps]. simpl. intros Hdep Hc.
  apply List.in_app_iff. right. apply List.in_flat_map. eauto.
Qed.

(** Every source a walk under one name records is that name. *)
Lemma collectItems_one_source (name : string) (crds : list CRD) (st : State) :
  (forall k s, sourceMap st !! k = Some s -> s = name) ->
  forall k s,
    sourceMap (collectItems (List.map (pair name) crds) st) !! k = Some s ->
    s = name.
Proof.
  revert st. induction crds as [|c crds IH]; intros st Hst; [exact Hst|].
  simpl. apply IH.
  destruct (collectCRD_cases name st c)
    as [(e & _ & ->) | [(key & src & _ & _ & ->) | (key & _ & _ & ->)]];
    try exact Hst.
  intros k s. simpl. destruct (decide (key = k)) as [<-|Hne].
  - rewrite lookup_insert_eq. congruence.
  - rewrite lookup_insert_ne by assumption. apply Hst.
Qed.

Lemma collectAll_maps_after_first_call (ch : Chart) :
  crdMap (collectAll ch)
  = crdMap (collectCRDs ch (Chart_Name ch) (mkState ch ∅ ∅ []))
  /\ sourceMap (collectAll ch)
     = sourceMap (collectCRDs ch (Chart_Name ch) (mkState ch ∅ ∅ [])).
Proof.
  rewrite collectAll_items. unfold collectorInput.
  rewrite collectItems_app, <- collectCRDs_items.
  apply collectItems_rewalk.
  intros it k Hit Hkey.
  apply List.in_flat_map in Hit as (dep & Hdep & Hit).
  apply List.in_map_iff in Hit as (c & <- & Hc). simpl in Hkey.
  rewrite collectCRDs_items.
  apply (collectItems_sources _ _ (Chart_Name ch, c) k); [|exact Hkey].
  apply List.in_map. apply (CRDObjects_of_dependency ch dep c Hdep Hc).
Qed.

(** The calls of line 64 add nothing: [CRDObjects] of the loaded chart lists
    the CRDs of its dependencies too, so after the call of line 59 both maps
    are final, and every source recorded is the name of the loaded chart. *)
Theorem collectAll_dependency_calls_add_nothing (ch : Chart) :
  crdMap (collectAll ch)
  = crdMap (collectCRDs ch (Chart_Name ch) (mkState ch ∅ ∅ []))
  /\ sourceMap (collectAll ch)
     = sourceMap (collectCRDs ch (Chart_Name ch) (mkState ch ∅ ∅ []))
  /\ forall k s, sourceMap (collectAll ch) !! k = Some s -> s = Chart_Name ch.
Proof.
  destruct (collectAll_maps_after_first_call ch) as [Hcrd Hsrc].
  repeat split; try assumption.
  rewrite Hsrc, collectCRDs_items.
  apply collectItems_one_source.
  intros k s Hk. simpl in Hk. rewrite lookup_empty in Hk. discriminate.
Qed.

Lemma collectItems_first (items : list (string * CRD)) (st : State)
    (k : GroupKind) :
  sourceMap st !! k = None ->
  crdMap st !! k = None ->
  crdMap (collectItems items st) !! k
  = CRD_File <$> List.find (keyIs k) (List.map snd items).
Proof.
  revert st. induction items as [|[n c] items IH]; intros st Hsrc Hcrd; [exact Hcrd|].
  simpl. unfold keyIs at 1.
  destruct (bool_decide (extractCRDKey (File_Data (CRD_File c)) = Ok k)) eqn:Hkey.
  - apply bool_decide_eq_true in Hkey.
    destruct (collectCRD_first n st c k Hkey Hsrc) as [Hsrc' Hcrd'].
    destruct (collectItems_keeps items _ k n Hsrc') as [_ ->]. exact Hcrd'.
  - apply bool_decide_eq_false in Hkey.
    destruct (collectCRD_other_key n st c k Hkey) as [Hsrc' Hcrd'].
    apply IH; congruence.
Qed.

(** What the command collects under a key is the first CRD object of that
    key in the order of [CRDObjects] of the loaded chart (its own files
    first, then each dependency's in turn, depth first), and nothing where
    no CRD object has the key. *)
Theorem collectAll_first_in_walk_order (ch : Chart) (k : GroupKind) :
  crdMap (collectAll ch) !! k
  = CRD_File <$> List.find (keyIs k) (CRDObjects ch).
Proof.
  destruct (collectAll_maps_after_first_call ch) as [-> _].
  rewrite collectCRDs_items, collectItems_first by apply lookup_empty.
  rewrite List.map_map. simpl. rewrite List.map_id. reflexivity.
Qed.

Lemma collectCRD_accounts (sourceName : string) (st : State) (f : CRD) :
  wellKeyed st ->
  size (crdMap (collectCRD sourceName st f))
  + List.length (stdout (collectCRD sourceName st f))
  = S (size (crdMap st) + List.length (stdout st)).
Proof.
  intros Hst.
  destruct (collectCRD_cases sourceName st f)
    as [(e & _ & ->) | [(key & src & _ & _ & ->) | (key & _ & Hnone & ->)]];
    simpl; rewrite ?List.length_app; simpl; try lia.
  rewrite map_size_insert_None; [lia|].
  destruct (crdMap st !! key) as [g|] eqn:Hg; [|reflexivity].
  destruct (Hst key g Hg) as [_ [s Hs]]. congruence.
Qed.

Lemma collectItems_accounts (items : list (string * CRD)) (st : State) :
  wellKeyed st ->
  size (crdMap (collectItems items st))
  + List.length (stdout (collectItems items st))
  = size (crdMap st) + List.length (stdout st) + List.length items.
Proof.
  revert st. induction items as [|[n c] items IH]; intros st Hst; [simpl; lia|].
  simpl. rewrite IH by (apply collectCRD_wellKeyed, Hst).
  rewrite (collectCRD_accounts n st c Hst). lia.
Qed.

(** Every CRD object the command walks through ends as one collected file
    or as one printed warning, never both and never neither. *)
Theorem collectAll_stores_or_warns (ch : Chart) :
  List.length (crdFiles (collectAll ch)) + List.length (stdout (collectAll ch))
  = List.length (collectorInput ch).
Proof.
  unfold crdFiles.
  change (List.length ((map_to_list (crdMap (collectAll ch))).*2))
    with (length ((map_to_list (crdMap (collectAll ch))).*2)).
  rewrite length_fmap, length_map_to_list, collectAll_items.
  rewrite collectItems_accounts by apply wellKeyed_empty.
  simpl. rewrite map_size_empty. lia.
Qed.

End CollectorWalk.

Lemma collectAll_dependency_calls_add_nothing_witness :
  sourceMap (collectAll (lib := sampleLib) umbrella) !! mkGroupKind "g" "Bar"
  = Some "umbrella".
Proof.
  destruct (sourceMap (collectAll (lib := sampleLib) umbrella) !! mkGroupKind "g" "Bar")
    as [s|] eqn:Hs; [|discriminate Hs].
  f_equal.
  apply (proj2 (proj2 (collectAll_dependency_calls_add_nothing (lib := sampleLib) umbrella))
           (mkGroupKind "g" "Bar") s Hs).
Defined.

(** ** crdonly.go: renameChart *)

(** [renameChart] panics on a chart without metadata. On any other chart it
    sets the name and nothing else of the chart, but for the annotation
    charts.openshift.io/name, which takes the new name where the chart has
    it and is not added where the chart has not. *)
Theorem renameChart_sets_name_and_annotation (ch : Chart) (newChartName : string) :
  (Meta ch = None -> exists msg, renameChart ch newChartName = Panic msg)
  /\ forall md, Meta ch = Some md ->
       exists md',
         renameChart ch newChartName
         = Done (mkChart (Raw ch) (Some md') (Templates ch) (Files ch) (Dependencies ch))
         /\ Name md' = newChartName
         /\ sameButName md md'
         /\ (forall k, is_Some (Annotations md' !! k) <-> is_Some (Annotations md !! k))
         /\ (Annotations md' !! "charts.openshift.io/name"
             = (fun _ => newChartName) <$> (Annotations md !! "charts.openshift.io/name"))
         /\ (forall k, k <> "charts.openshift.io/name" ->
               Annotations md' !! k = Annotations md !! k).
Proof.
  unfold renameChart. split.
  - intros ->. eauto.
  - intros md ->. simpl.
    destruct (Annotations md !! "charts.openshift.io/name") as [old|] eqn:Hold.
    + eexists. split; [reflexivity|]. simpl.
      split; [reflexivity|]. split; [repeat split|].
      split; [|split].
      * intros k. destruct (decide (k = "charts.openshift.io/name")) as [->|Hk].
        -- rewrite lookup_insert_eq, Hold. split; eauto.
        -- rewrite lookup_insert_ne by congruence. reflexivity.
      * rewrite lookup_insert_eq. reflexivity.
      * intros k Hk. apply lookup_insert_ne. congruence.
    + eexists. split; [reflexivity|]. simpl.
      split; [reflexivity|]. split; [repeat split|].
      split; [reflexivity|]. split; [exact Hold|reflexivity].
Qed.

Lemma renameChart_sets_name_and_annotation_witness :
  exists md',
    renameChart appChart "app-certified-crds"
    = Done (mkChart (Raw appChart) (Some md') (Templates appChart) (Files appChart)
                    (Dependencies appChart))
    /\ Name md' = "app-certified-crds"
    /\ sameButName appMetadata md'
    /\ (forall k, is_Some (Annotations md' !! k) <-> is_Some (Annotations appMetadata !! k))
    /\ (Annotations md' !! "charts.openshift.io/name"
        = (fun _ => "app-certified-crds")
            <$> (Annotations appMetadata !! "charts.openshift.io/name"))
    /\ (forall k, k <> "charts.openshift.io/name" ->
          Annotations md' !! k = Annotations appMetadata !! k).
Proof.
  apply (proj2 (renameChart_sets_name_and_annotation appChart "app-certified-crds")
           appMetadata).
  reflexivity.
Defined.

(** ** crdonly.go: modifyDocYaml when it goes through *)

(** A call of [SetNestedField] with two fields on a map whose first level is
    a map or is not there: the value is stored, the map at the first field
    keeps what else it held, and the other fields of the top map stay. *)
Lemma SetNestedField_two_ok (m : gmap string value) (v : value) (a b : string) :
  (forall val, m !! a = Some val -> asMap val <> None) ->
  exists m',
    SetNestedField (Some m) v [a; b] = Done m'
    /\ (forall k, k <> a -> m' !! k = m !! k)
    /\ (forall val, m' !! a = Some val -> asMap val <> None)
    /\ (forall a' b',
          nestedLookup m' a' b'
          = if bool_decide (a' = a /\ b' = b) then Some v else nestedLookup m a' b').
Proof.
  intros Hlevel. rewrite SetNestedField_two.
  assert (Hgen : forall sub,
            (forall b', nestedLookup m a b' = sub !! b') ->
            forall a' b',
              nestedLookup (<[a := VMap (<[b := v]> sub)]> m) a' b'
              = if bool_decide (a' = a /\ b' = b) then Some v else nestedLookup m a' b').
  { intros sub Hsub a' b'. unfold nestedLookup at 1.
    destruct (decide (a' = a)) as [->|Ha].
    - rewrite lookup_insert_eq.
      destruct (decide (b' = b)) as [->|Hb].
      + rewrite lookup_insert_eq, bool_decide_eq_true_2 by auto. reflexivity.
      + rewrite lookup_insert_ne by congruence.
        rewrite bool_decide_eq_false_2 by tauto. symmetry. apply Hsub.
    - rewrite lookup_insert_ne by congruence.
      rewrite bool_decide_eq_false_2 by tauto. reflexivity. }
  destruct (m !! a) as [val|] eqn:Ha.
  - destruct val as [| | | | |sub]; try (exfalso; apply (Hlevel _ eq_refl); reflexivity).
    simpl. eexists. split; [reflexivity|]. split; [|split].
    + intros k Hk. apply lookup_insert_ne. congruence.
    + intros val. rewrite lookup_insert_eq. intros [= <-]. discriminate.
    + apply Hgen. intros b'. unfold nestedLookup. rewrite Ha. reflexivity.
  - eexists. split; [reflexivity|]. split; [|split].
    + intros k Hk. apply lookup_insert_ne. congruence.
    + intros val. rewrite lookup_insert_eq. intros [= <-]. discriminate.
    + apply Hgen. intros b'. unfold nestedLookup. rewrite Ha, lookup_empty. reflexivity.
Qed.

Section DocumentRewritten.

Context {lib : Lib}.

(** On a document that decodes to a map with nothing but maps under project,
    chart and release, [modifyDocYaml] hands [yaml.Marshal] a map in which
    project.name, project.shortName, chart.name and release.name are the new
    name, made where they were not there, and everything else is as the
    document had it; it returns what [yaml.Marshal] returns. *)
Theorem modifyDocYaml_sets_the_four_names (data newChartName : string)
    (content : gmap string value) :
  yaml_Unmarshal_map data = Ok (Some content) ->
  (forall key val, In key ["project"; "chart"; "release"] ->
     content !! key = Some val -> asMap val <> None) ->
  exists rewritten,
    modifyDocYaml data newChartName
    = match yaml_Marshal rewritten with
      | Ok out => Done out
      | Err e => Fail e
      end
    /\ nestedLookup rewritten "project" "name" = Some (VString newChartName)
    /\ nestedLookup rewritten "project" "shortName" = Some (VString newChartName)
    /\ nestedLookup rewritten "chart" "name" = Some (VString newChartName)
    /\ nestedLookup rewritten "release" "name" = Some (VString newChartName)
    /\ (forall k, ~ In k ["project"; "chart"; "release"] ->
          rewritten !! k = content !! k)
    /\ (forall a b,
          ~ In (a, b) [("project", "name"); ("project", "shortName");
                       ("chart", "name"); ("release", "name")] ->
          nestedLookup rewritten a b = nestedLookup content a b).
Proof.
  intros Hparse Hlevels. unfold modifyDocYaml. rewrite Hparse.
  destruct (SetNestedField_two_ok content (VString newChartName) "project" "name")
    as (c1 & -> & Hc1 & Hl1 & Hn1).
  { intros val. apply Hlevels. left. reflexivity. }
  cbn [mbind outcome_bind].
  destruct (SetNestedField_two_ok c1 (VString newChartName) "project" "shortName" Hl1)
    as (c2 & -> & Hc2 & Hl2 & Hn2).
  cbn [mbind outcome_bind].
  destruct (SetNestedField_two_ok c2 (VString newChartName) "chart" "name")
    as (c3 & -> & Hc3 & Hl3 & Hn3).
  { intros val. rewrite Hc2, Hc1 by discriminate.
    apply Hlevels. right. left. reflexivity. }
  cbn [mbind outcome_bind].
  destruct (SetNestedField_two_ok c3 (VString newChartName) "release" "name")
    as (c4 & -> & Hc4 & Hl4 & Hn4).
  { intros val. rewrite Hc3, Hc2, Hc1 by discriminate.
    apply Hlevels. right. right. left. reflexivity. }
  cbn [mbind outcome_bind].
  exists c4. split; [reflexivity|].
  assert (Hn : forall a b,
            nestedLookup c4 a b
            = if bool_decide (In (a, b) [("project", "name"); ("project", "shortName");
                                         ("chart", "name"); ("release", "name")])
              then Some (VString newChartName)
              else nestedLookup content a b).
  { intros a b. rewrite Hn4, Hn3, Hn2, Hn1. simpl.
    repeat case_bool_decide; try reflexivity; exfalso;
      repeat match goal with
             | H : _ /\ _ |- _ => destruct H
             | H : ~ (_ \/ _) |- _ => apply Decidable.not_or in H
             | H : _ \/ _ |- _ => destruct H
             | H : (_, _) = (_, _) |- _ => injection H as ? ?
             end; subst; tauto. }
  repeat split.
  - rewrite Hn. reflexivity.
  - rewrite Hn. reflexivity.
  - rewrite Hn. reflexivity.
  - rewrite Hn. reflexivity.
  - intros k Hk. simpl in Hk.
    rewrite Hc4, Hc3, Hc2, Hc1 by (intros ->; tauto). reflexivity.
  - intros a b Hab. rewrite Hn. rewrite bool_decide_eq_false_2 by exact Hab. reflexivity.
Qed.

End DocumentRewritten.

Lemma modifyDocYaml_sets_the_four_names_witness :
  exists rewritten,
    modifyDocYaml (lib := docLib) emptyMappingDoc "app-certified"
    = match yaml_Marshal (Lib := docLib) rewritten with
      | Ok out => Done out
      | Err e => Fail e
      end
    /\ nestedLookup rewritten "project" "shortName" = Some (VString "app-certified").
Proof.
  destruct (modifyDocYaml_sets_the_four_names (lib := docLib)
              emptyMappingDoc "app-certified" ∅ eq_refl)
    as (rewritten & Hrun & _ & Hshort & _).
  - intros key val _ Hval. rewrite lookup_empty in Hval. discriminate Hval.
  - exists rewritten. split; assumption.
Defined.

(** ** crdless.go: the command *)

Lemma keeps_doc_yaml_names (files : list File) :
  List.find isDocYaml (List.filter (fun f => negb (underCRDs f)) files)
  = List.find isDocYaml files.
Proof. apply find_doc_after_filter. Qed.

Section CrdLess.

Context {lib : Lib}.

Lemma rewriteDoc_without_doc (files : list File) (newChartName : string) :
  List.find isDocYaml files = None ->
  rewriteDoc files newChartName = Done (files, []).
Proof.
  induction files as [|x files IH]; [reflexivity|]. simpl. unfold isDocYaml at 1.
  destruct (String.eqb (File_Name x) "doc.yaml"); [discriminate|].
  intros Hnone. rewrite (IH Hnone). reflexivity.
Qed.

Lemma rewriteDoc_first_doc (pre post : list File) (doc : File)
    (newChartName : string) :
  Forall (fun f => isDocYaml f = false) pre ->
  isDocYaml doc = true ->
  rewriteDoc (pre ++ doc :: post) newChartName
  = match modifyDocYaml (File_Data doc) newChartName with
    | Done data => Done (pre ++ mkFile (File_Name doc) data :: post, [])
    | Fail e => Done (pre ++ doc :: post, [WarnModifyDoc e])
    | Panic msg => Panic msg
    end.
Proof.
  intros Hpre Hdoc. induction Hpre as [|x pre Hx _ IH]; simpl.
  - unfold isDocYaml in Hdoc. rewrite Hdoc. reflexivity.
  - unfold isDocYaml in Hx. rewrite Hx, IH.
    destruct (modifyDocYaml (File_Data doc) newChartName); reflexivity.
Qed.

(** What [rewriteDoc] returns has the names of the files it was given, in
    their order, every file that is not a doc.yaml as it was, and at most
    one warning. *)
Lemma rewriteDoc_result (files fs : list File) (newChartName : string)
    (evs : list Event) :
  rewriteDoc files newChartName = Done (fs, evs) ->
  List.map File_Name fs = List.map File_Name files
  /\ (forall g, In g fs -> isDocYaml g = false -> In g files)
  /\ List.length evs <= 1.
Proof.
  revert fs evs. induction files as [|x files IH]; intros fs evs; simpl.
  - intros [= <- <-]. simpl. split; [reflexivity|]. split; [tauto|lia].
  - destruct (String.eqb (File_Name x) "doc.yaml") eqn:Hx.
    + destruct (modifyDocYaml (File_Data x) newChartName) as [data|e|msg];
        intros [= <- <-]; simpl.
      * split; [reflexivity|]. split; [|lia].
        intros g [<-|Hg] Hdoc; [|right; exact Hg].
        unfold isDocYaml in Hdoc. simpl in Hdoc. congruence.
      * split; [reflexivity|]. split; [tauto|lia].
    + destruct (rewriteDoc files newChartName) as [[fs' evs']|e|msg];
        cbn [mbind outcome_bind]; intros [= <- <-].
      destruct (IH fs' evs' eq_refl) as (Hnames & Hsame & Hlen). simpl.
      split; [f_equal; exact Hnames|]. split; [|exact Hlen].
      intros g [<-|Hg] Hdoc; [left; reflexivity|right; exact (Hsame g Hg Hdoc)].
Qed.

(** The CRD-less command on a chart with metadata, in full. It saves the
    chart with the suffix -certified on its name, the files that are not
    under crds/, and its dependencies as [removeCRDsFromChart] leaves them.
    Without a doc.yaml among the files nothing else happens. With one, the
    first is handed to [modifyDocYaml]: on success its bytes are replaced
    and no other file is touched, on an error it stays as it is and one
    warning is printed, on a panic nothing is saved. *)
Theorem crdLess_rewrites_first_doc_only (ch : Chart) (md : Metadata) :
  Meta ch = Some md ->
  let newChartName := Name md +:+ "-certified" in
  let kept := List.filter (fun f => negb (underCRDs f)) (Files ch) in
  let saved := fun files =>
    mkChart (Raw ch) (Some (setName md newChartName)) (Templates ch) files
            (List.map stripDependency (Dependencies ch)) in
  (List.find isDocYaml (Files ch) = None ->
   crdLess ch = Done (saved kept, []))
  /\ (forall pre doc post,
        kept = pre ++ doc :: post ->
        Forall (fun f => isDocYaml f = false) pre ->
        isDocYaml doc = true ->
        crdLess ch
        = match modifyDocYaml (File_Data doc) newChartName with
          | Done data => Done (saved (pre ++ mkFile (File_Name doc) data :: post), [])
          | Fail e => Done (saved kept, [WarnModifyDoc e])
          | Panic msg => Panic msg
          end).
Proof.
  intros Hmeta newChartName kept saved.
  unfold crdLess. rewrite Hmeta. fold newChartName.
  rewrite removeCRDsFromChart_unfold. cbn [setMeta Files Raw Templates Dependencies].
  fold kept. split.
  - intros Hnone. rewrite rewriteDoc_without_doc; [reflexivity|].
    unfold kept. rewrite keeps_doc_yaml_names. exact Hnone.
  - intros pre doc post Hkept Hpre Hdoc. rewrite Hkept.
    rewrite (rewriteDoc_first_doc pre post doc newChartName Hpre Hdoc).
    destruct (modifyDocYaml (File_Data doc) newChartName); reflexivity.
Qed.

(** Whatever the CRD-less command saves has the loaded chart's raw files,
    templates and metadata but for the name, as many charts in the same
    places (each dependency as the stripper's loop leaves it), and at the
    top the names of the loaded chart's files that are not under crds/, in
    their order: no file under crds/ is left there, no file is added, and a
    file that is not a doc.yaml is as it was loaded. At most one warning is
    printed. *)
Theorem crdLess_saves_the_stripped_chart (ch out : Chart) (evs : list Event) :
  crdLess ch = Done (out, evs) ->
  exists md,
    Meta ch = Some md
    /\ Meta out = Some (setName md (Name md +:+ "-certified"))
    /\ Raw out = Raw ch
    /\ Templates out = Templates ch
    /\ Dependencies out = List.map stripDependency (Dependencies ch)
    /\ nodeCount out = nodeCount ch
    /\ List.map File_Name (Files out)
       = List.map File_Name (List.filter (fun f => negb (underCRDs f)) (Files ch))
    /\ (forall g, In g (Files out) -> underCRDs g = false)
    /\ (forall g, In g (Files out) -> isDocYaml g = false -> In g (Files ch))
    /\ List.length evs <= 1.
Proof.
  unfold crdLess. destruct (Meta ch) as [md|] eqn:Hmeta; [|discriminate].
  rewrite removeCRDsFromChart_unfold. cbn [setMeta Files Raw Templates Dependencies].
  destruct (rewriteDoc _ _) as [[fs evs']|e|msg] eqn:Hrewrite;
    cbn [mbind outcome_bind]; intros [= <- <-].
  destruct (rewriteDoc_result _ _ _ _ Hrewrite) as (Hnames & Hsame & Hlen).
  exists md. cbn [setFiles Meta Raw Templates Dependencies Files fst snd].
  repeat split; try assumption; try reflexivity.
  - destruct (removeCRDsFromChart_shape_count ch) as [_ Hcount].
    rewrite removeCRDsFromChart_unfold in Hcount. destruct ch. exact Hcount.
  - intros g Hg.
    assert (Hname : In (File_Name g)
              (List.map File_Name (List.filter (fun f => negb (underCRDs f)) (Files ch)))).
    { rewrite <- Hnames. apply List.in_map, Hg. }
    apply List.in_map_iff in Hname as (f & Hf & Hin).
    apply List.filter_In in Hin as [_ Hkeep].
    unfold underCRDs in *. rewrite <- Hf. destruct (HasPrefix (File_Name f) "crds/");
      [discriminate|reflexivity].
  - intros g Hg Hdoc. specialize (Hsame g Hg Hdoc).
    apply List.filter_In in Hsame. tauto.
Qed.

End CrdLess.

Lemma crdLess_rewrites_first_doc_only_witness :
  crdLess (lib := docLib) appChart
  = Done (mkChart (Raw appChart) (Some (setName appMetadata "app-certified"))
                  (Templates appChart)
                  [mkFile "doc.yaml" rewrittenEmptyMappingDoc; mkFile "README.md" "app"]
                  (List.map stripDependency (Dependencies appChart)), []).
Proof.
  rewrite (proj2 (crdLess_rewrites_first_doc_only (lib := docLib)
                    appChart appMetadata eq_refl)
             [] (mkFile "doc.yaml" emptyMappingDoc) [mkFile "README.md" "app"]).
  - reflexivity.
  - reflexivity.
  - constructor.
  - reflexivity.
Defined.

Lemma crdLess_saves_the_stripped_chart_witness :
  exists md,
    Meta brokenDocChart = Some md
    /\ Meta (setMeta brokenDocChart (setName (metadataOf "app") "app-certified"))
       = Some (setName md (Name md +:+ "-certified")).
Proof.
  destruct (crdLess_saves_the_stripped_chart (lib := sampleLib) brokenDocChart
              (setMeta brokenDocChart (setName (metadataOf "app") "app-certified"))
              [WarnModifyDoc "yaml: did not find expected node content"] eq_refl)
    as (md & Hmeta & Hout & _).
  exists md. split; assumption.
Defined.

(** ** crdonly.go: the command *)

Lemma substring_whole (s : string) : String.substring 0 (String.length s) s = s.
Proof. induction s as [|c s IH]; simpl; [reflexivity|]. rewrite IH. reflexivity. Qed.

(** [strings.TrimPrefix(s, "v")] takes one leading v off and no more. *)
Lemma TrimPrefix_v (rest : string) : TrimPrefix (String "v" rest) "v" = rest.
Proof.
  unfold TrimPrefix, HasPrefix. simpl.
  destruct (ascii_dec "v" "v") as [_|Hne]; [|congruence].
  replace (String.prefix "" rest) with true by (destruct rest; reflexivity).
  rewrite ?Nat.sub_0_r. apply substring_whole.
Qed.

Section CrdOnly.

Context {lib : Lib}.



Lemma crdOnly_Done (ch out : Chart) (semver : bool) (evs : list Event) :
  crdOnly ch semver = Done (out, evs) ->
  exists md acc renamed md',
    Meta ch = Some md
    /\ copyFiles (Raw ch) (Name md +:+ "-certified-crds") filesToCopy
                 ([], stdout (collectAll ch)) = Done acc
    /\ renameChart
         (mkChart []
            (Some (mkMetadata (Name md +:+ "-certified-crds") (Home md) (Sources md)
                     (Version md)
                     ("Chart containing only CRDs from " +:+ Chart_Name ch +:+ " chart")
                     (Keywords md) (Maintainers md) (Icon md) "v2"
                     (Condition md) (Tags md) (AppVersion md) (Annotations md)
                     (KubeVersion md)))
            [] (crdFiles (collectAll ch) ++ acc.1 ++ templateHelpers ch) [])
         (Name md +:+ "-certified-crds") = Done renamed
    /\ Meta renamed = Some md'
    /\ out = (if semver
              then setMeta renamed (setVersion md' (TrimPrefix (Version md) "v"))
              else renamed)
    /\ evs = acc.2.
Proof.
  unfold crdOnly. destruct (Meta ch) as [md|] eqn:Hmeta; [|discriminate].
  destruct (copyFiles _ _ _ _) as [acc|e|msg] eqn:Hcopy;
    cbn [mbind outcome_bind]; try discriminate.
  destruct (renameChart _ _) as [renamed|e|msg] eqn:Hrename;
    cbn [mbind outcome_bind]; try discriminate.
  destruct (Meta renamed) as [md'|] eqn:Hmeta'; [|discriminate].
  intros [= <- <-]. exists md, acc, renamed, md'.
  repeat split; try reflexivity; assumption.
Qed.

Lemma renameChart_Done (raw tpl files : list File) (deps : list Chart)
    (md0 : Metadata) (newChartName : string) (renamed : Chart) :
  renameChart (mkChart raw (Some md0) tpl files deps) newChartName = Done renamed ->
  exists ann,
    renamed = mkChart raw (Some (setAnnotations (setName md0 newChartName) ann))
                      tpl files deps
    /\ forall k,
         ann !! k
         = if decide (k = "charts.openshift.io/name")
           then (fun _ => newChartName) <$> (Annotations md0 !! k)
           else Annotations md0 !! k.
Proof.
  unfold renameChart. simpl.
  destruct (Annotations md0 !! "charts.openshift.io/name") as [old|] eqn:Hold;
    intros [= <-].
  - eexists. split; [reflexivity|]. intros k. case_decide as Hk.
    + subst k. rewrite lookup_insert_eq, Hold. reflexivity.
    + apply lookup_insert_ne. congruence.
  - exists (Annotations md0). split; [destruct md0; reflexivity|].
    intros k. case_decide as Hk; [subst k; rewrite Hold|]; reflexivity.
Qed.

(** What the CRD-only command saves is one chart with no dependency, no
    template list and no raw file list of its own. Its name is the loaded
    chart's with the suffix -certified-crds, its description names the
    loaded chart, its API version is v2, and its version is the loaded
    chart's, one leading v taken off when [semver] is set; home, sources,
    keywords, maintainers, icon, condition, tags, app version and kube
    version are copied; the annotations are the loaded chart's, with
    charts.openshift.io/name carrying the new name where it was there. *)
Theorem crdOnly_saves_flat_renamed_chart (ch out : Chart) (semver : bool)
    (evs : list Event) :
  crdOnly ch semver = Done (out, evs) ->
  exists md md',
    Meta ch = Some md /\ Meta out = Some md'
    /\ Raw out = [] /\ Templates out = [] /\ Dependencies out = []
    /\ Name md' = Name md +:+ "-certified-crds"
    /\ Description md' = "Chart containing only CRDs from " +:+ Name md +:+ " chart"
    /\ APIVersion md' = "v2"
    /\ Version md' = (if semver then TrimPrefix (Version md) "v" else Version md)
    /\ (forall rest, semver = true -> Version md = String "v" rest ->
          Version md' = rest)
    /\ Home md' = Home md /\ Sources md' = Sources md
    /\ Keywords md' = Keywords md /\ Maintainers md' = Maintainers md
    /\ Icon md' = Icon md /\ Condition md' = Condition md
    /\ Tags md' = Tags md /\ AppVersion md' = AppVersion md
    /\ KubeVersion md' = KubeVersion md
    /\ forall k,
         Annotations md' !! k
         = if decide (k = "charts.openshift.io/name")
           then (fun _ => Name md +:+ "-certified-crds") <$> (Annotations md !! k)
           else Annotations md !! k.
Proof.
  intros Hrun.
  destruct (crdOnly_Done ch out semver evs Hrun)
    as (md & acc & renamed & md1 & Hmeta & _ & Hrename & Hmeta1 & -> & _).
  destruct (renameChart_Done _ _ _ _ _ _ _ Hrename) as (ann & -> & Hann).
  simpl in Hmeta1. injection Hmeta1 as <-.
  assert (Hname : Chart_Name ch = Name md) by (unfold Chart_Name; rewrite Hmeta; reflexivity).
  exists md. destruct semver; eexists; simpl;
    (split; [exact Hmeta|]); (split; [reflexivity|]);
    rewrite ?Hname; repeat split; try reflexivity; try exact Hann;
    try discriminate.
  intros rest _ ->. apply TrimPrefix_v.
Qed.


End CrdOnly.

Lemma crdOnly_saves_flat_renamed_chart_witness :
  exists out evs,
    crdOnly (lib := sampleLib) appChart true = Done (out, evs)
    /\ Dependencies out = []
    /\ exists md', Meta out = Some md' /\ Version md' = "1.2.3".
Proof.
  destruct (crdOnly (lib := sampleLib) appChart true) as [[out evs]|e|msg] eqn:Hrun;
    [|vm_compute in Hrun; discriminate Hrun|vm_compute in Hrun; discriminate Hrun].
  destruct (crdOnly_saves_flat_renamed_chart (lib := sampleLib) appChart out true evs Hrun)
    as (md & md' & Hmeta & Hout & _ & _ & Hdeps & _ & _ & _ & _ & Hv & _).
  exists out, evs. split; [reflexivity|]. split; [exact Hdeps|].
  exists md'. split; [exact Hout|].
  apply Hv; [reflexivity|]. injection Hmeta as <-. reflexivity.
Defined.


(** ** Both commands: what stops them *)

Section ReachSave.

Context {lib : Lib}.

Lemma rewriteDoc_outcome (files : list File) (newChartName : string) :
  match List.find isDocYaml files with
  | None => rewriteDoc files newChartName = Done (files, [])
  | Some doc =>
      match modifyDocYaml (File_Data doc) newChartName with
      | Panic msg => rewriteDoc files newChartName = Panic msg
      | _ => exists r, rewriteDoc files newChartName = Done r
      end
  end.
Proof.
  induction files as [|x files IH]; [reflexivity|]. simpl. unfold isDocYaml at 1.
  destruct (String.eqb (File_Name x) "doc.yaml").
  - destruct (modifyDocYaml (File_Data x) newChartName); eauto.
  - destruct (List.find isDocYaml files) as [doc|].
    + destruct (modifyDocYaml (File_Data doc) newChartName) as [data|e|msg].
      * destruct IH as [r ->]. cbn [mbind outcome_bind]. eauto.
      * destruct IH as [r ->]. cbn [mbind outcome_bind]. eauto.
      * rewrite IH. reflexivity.
    + rewrite IH. reflexivity.
Qed.

Lemma copyFiles_outcome (raw : list File) (newChartName : string)
    (printed : list Event) :
  match List.find isDocYaml raw with
  | None => exists acc, copyFiles raw newChartName filesToCopy ([], printed) = Done acc
  | Some doc =>
      match modifyDocYaml (File_Data doc) newChartName with
      | Panic msg => copyFiles raw newChartName filesToCopy ([], printed) = Panic msg
      | _ => exists acc, copyFiles raw newChartName filesToCopy ([], printed) = Done acc
      end
  end.
Proof.
  assert (Hrest : forall acc, exists acc',
            copyFiles raw newChartName
              ["README.md"; "values.yaml"; "values.schema.json"; ".helmignore"] acc
            = Done acc').
  { intros acc.
    destruct (copyFiles_verbatim raw newChartName
                ["README.md"; "values.yaml"; "values.schema.json"; ".helmignore"] acc)
      as (copied & -> & _); [repeat constructor|eauto]. }
  unfold filesToCopy.
  change (copyFiles raw newChartName
            ("doc.yaml" :: ["README.md"; "values.yaml"; "values.schema.json"; ".helmignore"])
            ([], printed))
    with (acc ← copyFile raw newChartName "doc.yaml" ([], printed);
          copyFiles raw newChartName
            ["README.md"; "values.yaml"; "values.schema.json"; ".helmignore"] acc).
  unfold copyFile.
  change (List.find (fun f => String.eqb (File_Name f) "doc.yaml") raw)
    with (List.find isDocYaml raw).
  destruct (List.find isDocYaml raw) as [doc|]; simpl String.eqb; cbv iota.
  - destruct (modifyDocYaml (File_Data doc) newChartName);
      cbn [mbind outcome_bind]; try apply Hrest; reflexivity.
  - cbn [mbind outcome_bind]. apply Hrest.
Qed.

(** Neither command ever stops on an error: what [modifyDocYaml] and
    [extractCRDKey] return as errors ends up as warnings. On a chart with
    metadata each command reaches the call of [chartutil.SaveDir] unless
    [modifyDocYaml] panics on the doc.yaml it looks up (the first of
    [ch.Files] for the CRD-less command, of [ch.Raw] for the CRD-only one). *)
Theorem commands_stop_on_panic_only (ch : Chart) (semver : bool) :
  (forall e, crdLess ch <> Fail e)
  /\ (forall e, crdOnly ch semver <> Fail e)
  /\ forall md, Meta ch = Some md ->
       ((forall doc msg,
            List.find isDocYaml (Files ch) = Some doc ->
            modifyDocYaml (File_Data doc) (Name md +:+ "-certified") <> Panic msg) ->
        exists out evs, crdLess ch = Done (out, evs))
       /\ ((forall doc msg,
              List.find isDocYaml (Raw ch) = Some doc ->
              modifyDocYaml (File_Data doc) (Name md +:+ "-certified-crds") <> Panic msg) ->
           exists out evs, crdOnly ch semver = Done (out, evs)).
Proof.
  assert (Hless : forall md, Meta ch = Some md ->
            match List.find isDocYaml (Files ch) with
            | Some doc =>
                match modifyDocYaml (File_Data doc) (Name md +:+ "-certified") with
                | Panic msg => crdLess ch = Panic msg
                | _ => exists out evs, crdLess ch = Done (out, evs)
                end
            | None => exists out evs, crdLess ch = Done (out, evs)
            end).
  { intros md Hmeta. unfold crdLess. rewrite Hmeta.
    rewrite removeCRDsFromChart_unfold. cbn [setMeta Files Raw Templates Dependencies].
    pose proof (rewriteDoc_outcome
                  (List.filter (fun f => negb (underCRDs f)) (Files ch))
                  (Name md +:+ "-certified")) as Hrewrite.
    rewrite keeps_doc_yaml_names in Hrewrite.
    destruct (List.find isDocYaml (Files ch)) as [doc|].
    - destruct (modifyDocYaml (File_Data doc) (Name md +:+ "-certified")) as [data|e|msg].
      + destruct Hrewrite as [r ->]. cbn [mbind outcome_bind]. eauto.
      + destruct Hrewrite as [r ->]. cbn [mbind outcome_bind]. eauto.
      + rewrite Hrewrite. reflexivity.
    - rewrite Hrewrite. cbn [mbind outcome_bind]. eauto. }
  assert (Honly : forall md, Meta ch = Some md ->
            match List.find isDocYaml (Raw ch) with
            | Some doc =>
                match modifyDocYaml (File_Data doc) (Name md +:+ "-certified-crds") with
                | Panic msg => crdOnly ch semver = Panic msg
                | _ => exists out evs, crdOnly ch semver = Done (out, evs)
                end
            | None => exists out evs, crdOnly ch semver = Done (out, evs)
            end).
  { intros md Hmeta.
    pose proof (copyFiles_outcome (Raw ch) (Name md +:+ "-certified-crds")
                  (stdout (collectAll ch))) as Hcopy.
    assert (Hdone : forall acc,
              copyFiles (Raw ch) (Name md +:+ "-certified-crds") filesToCopy
                        ([], stdout (collectAll ch)) = Done acc ->
              exists out evs, crdOnly ch semver = Done (out, evs)).
    { intros acc Hacc.
      destruct (crdOnly_files ch semver md acc Hmeta Hacc) as (out & -> & _). eauto. }
    destruct (List.find isDocYaml (Raw ch)) as [doc|].
    - destruct (modifyDocYaml (File_Data doc) (Name md +:+ "-certified-crds"))
        as [data|e|msg].
      + destruct Hcopy as [acc Hacc]. exact (Hdone acc Hacc).
      + destruct Hcopy as [acc Hacc]. exact (Hdone acc Hacc).
      + unfold crdOnly. rewrite Hmeta, Hcopy. reflexivity.
    - destruct Hcopy as [acc Hacc]. exact (Hdone acc Hacc). }
  split; [|split].
  - intros e. destruct (Meta ch) as [md|] eqn:Hmeta.
    + specialize (Hless md eq_refl).
      destruct (List.find isDocYaml (Files ch)) as [doc|];
        [destruct (modifyDocYaml (File_Data doc) (Name md +:+ "-certified"))|];
        first [ rewrite Hless; discriminate
              | destruct Hless as (out & evs & ->); discriminate ].
    + unfold crdLess. rewrite Hmeta. discriminate.
  - intros e. destruct (Meta ch) as [md|] eqn:Hmeta.
    + specialize (Honly md eq_refl).
      destruct (List.find isDocYaml (Raw ch)) as [doc|];
        [destruct (modifyDocYaml (File_Data doc) (Name md +:+ "-certified-crds"))|];
        first [ rewrite Honly; discriminate
              | destruct Honly as (out & evs & ->); discriminate ].
    + unfold crdOnly. rewrite Hmeta. discriminate.
  - intros md Hmeta. specialize (Hless md Hmeta). specialize (Honly md Hmeta). split.
    + intros Hsafe.
      destruct (List.find isDocYaml (Files ch)) as [doc|]; [|exact Hless].
      destruct (modifyDocYaml (File_Data doc) (Name md +:+ "-certified")) as [?|?|msg] eqn:Hrun;
        try exact Hless.
      exfalso. exact (Hsafe doc msg eq_refl Hrun).
    + intros Hsafe.
      destruct (List.find isDocYaml (Raw ch)) as [doc|]; [|exact Honly].
      destruct (modifyDocYaml (File_Data doc) (Name md +:+ "-certified-crds"))
        as [?|?|msg] eqn:Hrun; try exact Honly.
      exfalso. exact (Hsafe doc msg eq_refl Hrun).
Qed.

End ReachSave.

Lemma commands_stop_on_panic_only_witness :
  exists out evs, crdLess (lib := sampleLib) brokenDocChart = Done (out, evs).
Proof.
  apply (proj1 (proj2 (proj2 (commands_stop_on_panic_only (lib := sampleLib)
                                brokenDocChart true))
                  (metadataOf "app") eq_refl)).
  intros doc msg Hdoc. injection Hdoc as <-. vm_compute. discriminate.
Defined.

(** ** The stripper and helm's CRDObjects together *)

Section StrippedChart.

Context {lib : Lib}.

Lemma ownCRDObjects_of_kept (files : list File) :
  ownCRDObjects (List.filter (fun f => negb (underCRDs f)) files) = [].
Proof.
  unfold ownCRDObjects. induction files as [|x files IH]; [reflexivity|]. simpl.
  destruct (underCRDs x) eqn:Hx; simpl; [exact IH|].
  unfold isCRDObject at 1. unfold underCRDs in Hx. rewrite Hx. simpl. exact IH.
Qed.

(** In a tree where every dependency at every depth passes the test of line
    103, the chart [removeCRDsFromChart] leaves has no CRD object for helm
    to install, at any depth, and the collector run on it collects nothing
    and prints nothing. *)
Theorem removeCRDsFromChart_leaves_no_CRD_object (ch : Chart) :
  allEmbedded ch = true ->
  CRDObjects (removeCRDsFromChart ch) = []
  /\ crdFiles (collectAll (removeCRDsFromChart ch)) = []
  /\ stdout (collectAll (removeCRDsFromChart ch)) = [].
Proof.
  intros Hall.
  assert (Hnone : CRDObjects (removeCRDsFromChart ch) = []).
  { revert Hall. induction ch as [raw md tpl files deps IH] using Chart_tree_ind.
    simpl. intros Hall. rewrite ownCRDObjects_of_kept. simpl.
    rewrite forallb_forall in Hall. rewrite Forall_forall in IH.
    induction deps as [|dep deps IHdeps]; [reflexivity|]. simpl.
    destruct (andb_prop _ _ (Hall dep (or_introl eq_refl))) as [Hguard Hrec].
    rewrite Hguard.
    rewrite (IH dep (list_elem_of_here dep deps) Hrec). simpl.
    apply IHdeps.
    - intros d Hd. apply IH. apply list_elem_of_further, Hd.
    - intros d Hd. apply Hall. right. exact Hd. }
  assert (Hinput : collectorInput (removeCRDsFromChart ch) = []).
  { unfold collectorInput. rewrite Hnone. simpl.
    assert (Hdeps : forall dep, In dep (Dependencies (removeCRDsFromChart ch)) ->
              CRDObjects dep = []).
    { intros dep Hdep. destruct (CRDObjects dep) as [|c crds] eqn:Hc; [reflexivity|].
      exfalso.
      assert (Hin : In c (CRDObjects (removeCRDsFromChart ch))).
      { apply (CRDObjects_of_dependency _ dep c Hdep). rewrite Hc. left. reflexivity. }
      rewrite Hnone in Hin. destruct Hin. }
    induction (Dependencies (removeCRDsFromChart ch)) as [|dep deps IH]; [reflexivity|].
    simpl. rewrite (Hdeps dep (or_introl eq_refl)). simpl.
    apply IH. intros d Hd. apply Hdeps. right. exact Hd. }
  split; [exact Hnone|]. rewrite collectAll_items, Hinput. simpl.
  split; [|reflexivity]. unfold crdFiles. simpl. rewrite map_to_list_empty. reflexivity.
Qed.

End StrippedChart.

Lemma removeCRDsFromChart_leaves_no_CRD_object_witness :
  CRDObjects (lib := sampleLib) rootA <> []
  /\ CRDObjects (lib := sampleLib) (removeCRDsFromChart rootA) = [].
Proof.
  split; [discriminate|].
  apply (removeCRDsFromChart_leaves_no_CRD_object (lib := sampleLib) rootA).
  reflexivity.
Defined.

(** ** crdless.go: the files the stripper keeps, node by node *)

(** The files that are not under crds/ stay where they are: at every node of
    the tree, whether the walk reaches it or not, they are the same files in
    the same order before and after [removeCRDsFromChart], and no file moves
    from one node to another. *)
Theorem removeCRDsFromChart_keeps_other_files_at_every_node (ch : Chart) :
  otherFiles (removeCRDsFromChart ch) = otherFiles ch.
Proof.
  induction ch as [raw md tpl files deps IH] using Chart_tree_ind.
  simpl. rewrite filter_twice. f_equal.
  rewrite List.map_map. apply map_ext_Forall'.
  eapply Forall_impl; [exact IH|].
  intros dep Hdep. simpl in Hdep.
  destruct (embeddedArchive dep); [exact Hdep|reflexivity].
Qed.
